(** * L.I.A.R: the excuse scorer, the fallback selector and the routes of
      [app.py] that persist excuses, proof documents and speech

    The development follows [app.py]:
    - [PyStr]: the operations of Python's [str] that the program uses
      ([split], [lower], [strip], the [in] operator);
    - [Scorer]: [ExcuseGenerator.calculate_believability];
    - [Py]: a state and exception monad over the world the program runs in
      (the random generator, the text-generation service, the database,
      the files, a call log);
    - [ExcuseGenerator]: [get_fallback_excuse] and [generate_excuse];
    - [generate_excuse] and [generate_proof]: the handlers of
      [/api/generate-excuse] and [/api/generate-proof] over a relational
      store with the constraints that the models of [app.py] declare;
    - [voice_excuse]: the handler of [/api/voice-excuse] over a speech
      backend that delivers or raises;
    - the proof renderers as far as the routes see them (the path
      returned, the file left), the word-wrap loop of the email body and
      the description line of the receipt.
    What the program prints is left out, and so are the rest of what the
    renderers draw and [/api/excuse-history], whose pagination is the
    store library's.

    Numbers.  A Python [int] is a [Z].  A Python [float] is a rational [Q]:
    every constant of the scorer (5.0, 1.5, 1.0, 0.5, 2.0, 10.0) is a
    multiple of one half and every intermediate value is below 16, so
    binary64 arithmetic is exact on them; [Binary64] is the scorer on
    primitive floats, and [calculate_believability_binary64] is the
    agreement.  The jitter of the fallback score is kept as an exact
    rational.

    Strings.  A Python [str] is the sequence of its code points; the model
    covers code points below 256, one [ascii] each. *)

From Stdlib Require Import QArith Qminmax Lqa.
From Stdlib Require Floats.PrimFloat Uint63.
From stdpp Require Import gmap strings list pretty.

Set Default Proof Using "Type".

(** ** Python strings *)

Module PyStr.

(** [str.isspace] on one code point: TAB..CR, FS..US, space, NEL, NBSP. *)
Definition isspace (c : Ascii.ascii) : bool :=
  let n := Ascii.N_of_ascii c in
  ((9 <=? n) && (n <=? 13) || (28 <=? n) && (n <=? 32)
   || (n =? 133) || (n =? 160))%N.

(** [str.lower] on one code point: A..Z and the Latin-1 capitals
    (U+00C0..U+00DE without the multiplication sign) move up by 32. *)
Definition lower_char (c : Ascii.ascii) : Ascii.ascii :=
  let n := Ascii.N_of_ascii c in
  if ((65 <=? n) && (n <=? 90)
      || (192 <=? n) && (n <=? 222) && negb (n =? 215))%N
  then Ascii.ascii_of_N (n + 32) else c.

Fixpoint lower (s : string) : string :=
  match s with
  | EmptyString => EmptyString
  | String c s' => String (lower_char c) (lower s')
  end.

(** [s.split()], no separator: the maximal runs of non-whitespace.
    [cur] is the run being read. *)
Fixpoint split_from (cur : string) (s : string) : list string :=
  match s with
  | EmptyString => if decide (cur = "") then [] else [cur]
  | String c s' =>
      if isspace c
      then (if decide (cur = "") then split_from "" s'
            else cur :: split_from "" s')
      else split_from (cur +:+ String c "") s'
  end.

Definition split (s : string) : list string := split_from "" s.

(** [w in s]: [w] is a substring of [s]. *)
Fixpoint contains (w s : string) : bool :=
  String.prefix w s
  || match s with
     | EmptyString => false
     | String _ s' => contains w s'
     end.

Fixpoint lstrip (s : string) : string :=
  match s with
  | EmptyString => EmptyString
  | String c s' => if isspace c then lstrip s' else s
  end.

Definition rstrip (s : string) : string :=
  String.rev (lstrip (String.rev s)).

(** [s.strip()] *)
Definition strip (s : string) : string := rstrip (lstrip s).

End PyStr.

(** [len] of a list, as a Python [int]. *)
Definition len {A} (l : list A) : Z := Z.of_nat (length l).

(** [sum] of a sequence of [int]s. *)
Definition py_sum (l : list Z) : Z := foldl Z.add 0%Z l.

(** [min(a, b)] and [max(a, b)] as the interpreter computes them: the
    first argument is kept unless the second is strictly better. *)
Definition py_min (a b : Q) : Q :=
  match (b ?= a)%Q with Lt => b | _ => a end.

Definition py_max (a b : Q) : Q :=
  match (b ?= a)%Q with Gt => b | _ => a end.

(** [d.get(k, default)] *)
Definition dict_get {V} (d : gmap string V) (k : string) (dflt : V) : V :=
  default dflt (d !! k).

(** ** The believability scorer *)

Module Scorer.

Definition specific_words : list string :=
  ["doctor"; "meeting"; "emergency"; "appointment"; "family"; "car";
   "sick"; "traffic"; "urgent"; "hospital"].

Definition urgency_words : gmap string (list string) :=
  {[ "high" := ["emergency"; "urgent"; "immediately"; "crisis";
                "hospital"; "serious"];
     "medium" := ["appointment"; "meeting"; "issue"; "problem";
                  "doctor"; "important"];
     "low" := ["feeling"; "might"; "possibly"; "may"; "think";
               "probably"] ]}.

(** [sum(1 for word in specific_words if word in excuse_text.lower())] *)
Definition specificity (excuse_text : string) : Z :=
  py_sum (map (fun _ => 1%Z)
            (List.filter
               (fun word => PyStr.contains word (PyStr.lower excuse_text))
               specific_words)).

(** [any(word in excuse_text.lower()
         for word in urgency_words.get(urgency, []))] *)
Definition urgency_aligned (excuse_text urgency : string) : bool :=
  existsb (fun word => PyStr.contains word (PyStr.lower excuse_text))
    (dict_get urgency_words urgency []).

Definition calculate_believability
    (excuse_text category urgency : string) : Q :=
  let score := 5.0%Q in
  let length := len (PyStr.split excuse_text) in
  let score :=
    if ((10 <=? length) && (length <=? 40))%Z then (score + 1.5)%Q
    else if ((length <? 5) || (60 <? length))%Z then (score - 1.0)%Q
    else score in
  let score :=
    (score + py_min (inject_Z (specificity excuse_text) * 0.5) 2.0)%Q in
  let score :=
    if urgency_aligned excuse_text urgency then (score + 1.5)%Q
    else score in
  py_min score 10.0.

(** The three amounts that [calculate_believability] adds to 5.0. *)
Definition length_bonus (length : Z) : Q :=
  if ((10 <=? length) && (length <=? 40))%Z then 1.5
  else if ((length <? 5) || (60 <? length))%Z then (- 1.0)
  else 0.

Definition specificity_bonus (specificity : Z) : Q :=
  py_min (inject_Z specificity * 0.5) 2.0.

Definition urgency_bonus (aligned : bool) : Q :=
  if aligned then 1.5 else 0.

End Scorer.

(** ** The scorer on binary64 floats *)

Module Binary64.

Import PrimFloat.

(** [float(n)] for a small non-negative [int]. *)
Definition of_int (n : Z) : float := of_uint63 (Uint63.of_Z n).

(** [min(a, b)] on floats. *)
Definition py_min (a b : float) : float := if ltb b a then b else a.

(** The float that a rational of the model stands for: its numerator
    divided by its denominator, correctly rounded. *)
Definition of_Q (q : Q) : float := div (of_int (Qnum q)) (of_int (Zpos (Qden q))).

(** [0 <= x <= 10] on floats. *)
Definition within_0_10 (x : float) : bool := leb 0 x && leb x 10.

(** [calculate_believability], with Python's float arithmetic. *)
Definition calculate_believability
    (excuse_text category urgency : string) : float :=
  let score := 5.0%float in
  let length := len (PyStr.split excuse_text) in
  let score :=
    if ((10 <=? length) && (length <=? 40))%Z then (score + 1.5)%float
    else if ((length <? 5) || (60 <? length))%Z then (score - 1.0)%float
    else score in
  let score :=
    (score + py_min (of_int (Scorer.specificity excuse_text) * 0.5) 2.0)%float in
  let score :=
    if Scorer.urgency_aligned excuse_text urgency then (score + 1.5)%float
    else score in
  py_min score 10.0.

End Binary64.

(** ** The scorer as the specification words it *)

Module Reference.

Inductive Urgency : Type := Low | Medium | High.

Definition urgency_name (u : Urgency) : string :=
  match u with
  | Low => "low"
  | Medium => "medium"
  | High => "high"
  end.

Definition vocabulary : list string :=
  ["doctor"; "meeting"; "emergency"; "appointment"; "family"; "car";
   "sick"; "traffic"; "urgent"; "hospital"].

Definition keywords (u : Urgency) : list string :=
  match u with
  | High => ["emergency"; "urgent"; "immediately"; "crisis"; "hospital";
             "serious"]
  | Medium => ["appointment"; "meeting"; "issue"; "problem"; "doctor";
               "important"]
  | Low => ["feeling"; "might"; "possibly"; "may"; "think"; "probably"]
  end.

(** The number of whitespace-separated words: the places where a
    non-whitespace character follows whitespace or starts the text. *)
Fixpoint word_starts (after_space : bool) (s : string) : nat :=
  match s with
  | EmptyString => 0
  | String c s' =>
      (if after_space && negb (PyStr.isspace c) then 1 else 0)
      + word_starts (PyStr.isspace c) s'
  end.

Definition word_count (text : string) : nat := word_starts true text.

(** Case-insensitive substring match: compare after lowercasing both. *)
Definition matches_ci (word text : string) : bool :=
  PyStr.contains (PyStr.lower word) (PyStr.lower text).

(** A word that lowering leaves as it is. *)
Definition lowercase (word : string) : Prop := PyStr.lower word = word.

Definition word_count_bonus (n : nat) : Q :=
  if decide (10 ≤ n ≤ 40) then 1.5
  else if decide (n < 5 ∨ 60 < n) then (- 1.0)
  else 0.

Definition match_count (text : string) : nat :=
  length (List.filter (fun word => matches_ci word text) vocabulary).

Definition specificity_bonus (text : string) : Q :=
  Qmin (0.5 * inject_Z (Z.of_nat (match_count text))) 2.0.

Definition urgency_bonus (text : string) (u : Urgency) : Q :=
  if existsb (fun word => matches_ci word text) (keywords u) then 1.5
  else 0.

Definition score (text : string) (u : Urgency) : Q :=
  Qmin (5.0 + word_count_bonus (word_count text)
        + specificity_bonus text + urgency_bonus text u) 10.0.

End Reference.

(** ** The world the program runs in *)

(** The exceptions that the modelled code can meet. *)
Inductive exn : Type :=
  | IndexError
  | KeyError
  | AttributeError
  | IntegrityError
  | OSError
  | OverflowError
  | ServiceError (msg : string).

(** What a JSON value of the text-generation response may hold. *)
Inductive pyval : Type :=
  | PyNone
  | PyStr (s : string).

Record Choice := { message : gmap string pyval }.
Record Response := { choices : list Choice }.

(** The arguments of [openai.ChatCompletion.create]. *)
Record ChatRequest := {
  model : string;
  messages : list (string * string);   (* role, content *)
  max_tokens : Z;
  temperature : Q;
}.

(** The rows of the three tables of [app.py]. Times are seconds. *)
Module User.
Record t := {
  id : Z;
  username : string;
  email : string;
  phone : option string;
  preferences : option string;
  created_at : Z;
}.
End User.

Module Excuse.
Record t := {
  id : Z;
  user_id : Z;
  category : string;
  scenario : string;
  excuse_text : string;
  believability_score : Q;
  urgency_level : string;
  language : string;
  proof_generated : bool;
  times_used : Z;
  effectiveness_rating : Q;
  is_favorite : bool;
  created_at : Z;
  last_used : option Z;
}.
End Excuse.

Module ProofDocument.
Record t := {
  id : Z;
  excuse_id : Z;
  document_type : string;
  file_path : string;
  generated_at : Z;
}.
End ProofDocument.

(** The relational store: one map per table, keyed by primary key.
    [foreign_keys] tells whether the engine enforces [db.ForeignKey]
    (SQLite, the default [DATABASE_URL], does not unless asked to). *)
Record DB := {
  users : gmap Z User.t;
  excuses : gmap Z Excuse.t;
  proof_documents : gmap Z ProofDocument.t;
  foreign_keys : bool;
}.

(** The calls that the log records.  The log is ghost state: the program
    keeps none, the model does, to tell how often the service and the
    fallback selector were called. *)
Inductive Event : Type :=
  | CallCompletion (request : ChatRequest)
  | CallFallback (category scenario urgency language : string).

Record World := {
  rng : nat -> N;          (* the raw outputs the generator has yet to give *)
  api_key : string;        (* [openai.api_key] *)
  completion : ChatRequest -> exn + Response;   (* the service's answer *)
  db : DB;
  now : Z;                 (* [datetime.utcnow()] *)
  stamp : string;          (* [datetime.now().strftime('%Y%m%d_%H%M%S')] *)
  disk_ok : string -> bool;   (* can this path be drawn and saved? *)
  files : gset string;     (* the files written so far *)
  log : list Event;        (* most recent call first *)
}.

Definition set_rng (f : (nat -> N) -> nat -> N) (w : World) : World :=
  {| rng := f (rng w); api_key := api_key w; completion := completion w;
     db := db w; now := now w; stamp := stamp w; disk_ok := disk_ok w;
     files := files w; log := log w |}.

Definition set_db (f : DB -> DB) (w : World) : World :=
  {| rng := rng w; api_key := api_key w; completion := completion w;
     db := f (db w); now := now w; stamp := stamp w; disk_ok := disk_ok w;
     files := files w; log := log w |}.

Definition set_files (f : gset string -> gset string) (w : World) : World :=
  {| rng := rng w; api_key := api_key w; completion := completion w;
     db := db w; now := now w; stamp := stamp w; disk_ok := disk_ok w;
     files := f (files w); log := log w |}.

Definition set_log (f : list Event -> list Event) (w : World) : World :=
  {| rng := rng w; api_key := api_key w; completion := completion w;
     db := db w; now := now w; stamp := stamp w; disk_ok := disk_ok w;
     files := files w; log := f (log w) |}.

(** ** The monad: a world in, a value or an exception and a world out *)

Inductive result (A : Type) : Type :=
  | Ok (a : A)
  | Raised (e : exn).
Arguments Ok {A} a.
Arguments Raised {A} e.

Definition Py (A : Type) : Type := World -> result A * World.

#[global] Instance Py_ret : MRet Py := fun A a w => (Ok a, w).

#[global] Instance Py_bind : MBind Py := fun A B f c w =>
  match c w with
  | (Ok a, w') => f a w'
  | (Raised e, w') => (Raised e, w')
  end.

Definition raise {A} (e : exn) : Py A := fun w => (Raised e, w).

(** [try: body except Exception as e: handler e].  What the body did to
    the world before it raised stays done. *)
Definition try_except {A} (body : Py A) (handler : exn -> Py A) : Py A :=
  fun w =>
    match body w with
    | (Ok a, w') => (Ok a, w')
    | (Raised e, w') => handler e w'
    end.

Definition gets {A} (f : World -> A) : Py A := fun w => (Ok (f w), w).
Definition modify (f : World -> World) : Py unit := fun w => (Ok tt, f w).
Definition trace (ev : Event) : Py unit := modify (set_log (cons ev)).

(** *** The [random] module *)

(** [random._randbelow(n)] for [n > 0] takes one raw output and brings
    it below [n]: every index below [n] is the outcome of some output. *)
Definition randbelow (n : nat) : Py nat := fun w =>
  (Ok (N.to_nat (rng w 0%nat) `mod` n)%nat,
   set_rng (fun g i => g (S i)) w).

(** [random.random()]: a multiple of 2^-53 in [0, 1). *)
Definition unit_of_raw (raw : N) : Q :=
  (inject_Z (Z.of_N (raw `mod` 2 ^ 53)) / inject_Z (2 ^ 53))%Q.

Definition random : Py Q := fun w =>
  (Ok (unit_of_raw (rng w 0%nat)), set_rng (fun g i => g (S i)) w).

(** [random.choice(seq)] raises [IndexError] on an empty sequence. *)
Definition random_choice {A} (seq : list A) : Py A :=
  match seq with
  | [] => raise IndexError
  | _ :: _ =>
      i ← randbelow (length seq);
      match seq !! i with
      | Some x => mret x
      | None => raise IndexError
      end
  end.

(** The candidate that [random.choice] takes from [seq] in world [w]. *)
Definition chosen {A} (seq : list A) (w : World) : option A :=
  seq !! (N.to_nat (rng w 0%nat) `mod` length seq)%nat.

(** The world once the generator gave one raw output. *)
Definition drawn (w : World) : World := set_rng (fun g i => g (S i)) w.

(** [random.uniform(a, b)] is [a + (b - a) * random()]. *)
Definition uniform_of (a b u : Q) : Q := (a + (b - a) * u)%Q.

Definition random_uniform (a b : Q) : Py Q :=
  u ← random; mret (uniform_of a b u).

(** [random.randint(a, b)] *)
Definition random_randint (a b : Z) : Py Z :=
  k ← randbelow (Z.to_nat (b - a + 1)); mret (a + Z.of_nat k)%Z.

(** ** The excuse generation service *)

(** The dictionary that [generate_excuse] and [get_fallback_excuse] return. *)
Record ExcuseData := {
  excuse : string;
  believability_score : Q;
  category : string;
  scenario : string;
  urgency : string;
}.

(** The fields once more, for statements whose parameters carry the names
    that the source gives them. *)
Abbreviation category_of := category (only parsing).
Abbreviation scenario_of := scenario (only parsing).
Abbreviation urgency_of := urgency (only parsing).

Module ExcuseGenerator.

(** The fallback table: language, then category, then urgency, then the
    candidate sentences. *)
Abbreviation table := (gmap string (gmap string (gmap string (list string)))).

(** The object's fields.  [excuses_db] is what [__init__] read from
    [excuses.json], the minimal table or the empty one. *)
Record t := {
  language_prompts : gmap string string;
  excuses_db : table;
}.

(** The table [__init__] uses when [excuses.json] is not there. *)
Definition minimal_fallbacks : table :=
  {[ "en" :=
       {[ "work" :=
            {[ "medium" := ["I'm not feeling well and need to rest today."];
               "high" := ["I have an emergency that requires immediate attention."];
               "low" := ["I have some personal matters to attend to."] ]} ]} ]}.

(** The prompts, as the bytes of their UTF-8 encoding: they are only
    passed on to the service. *)
Definition init_language_prompts : gmap string string :=
  {[ "en" := "Generate a believable excuse in English";
     "hi" := "हिंदी में एक विश्वसनीय बहाना बनाएं";
     "es" := "Genera una excusa creíble en español";
     "fr" := "Générez une excuse crédible en français";
     "de" := "Generieren Sie eine glaubwürdige Entschuldigung auf Deutsch" ]}.

Definition init (loaded : table) : t :=
  {| language_prompts := init_language_prompts; excuses_db := loaded |}.

Definition calculate_believability := Scorer.calculate_believability.

Definition sentinel_text : string :=
  "I have an unexpected situation that requires my attention.".

Definition default_options : list string :=
  ["I need to handle something important today."].

Definition base_score : gmap string Q :=
  {[ "low" := 6.5%Q; "medium" := 7.5%Q; "high" := 8.5%Q ]}.

(** The list that the three nested [.get] calls of [get_fallback_excuse]
    resolve to. *)
Definition excuse_options (self : t) (category urgency language : string)
    : list string :=
  let language_excuses :=
    dict_get (excuses_db self) language (dict_get (excuses_db self) "en" ∅) in
  let category_excuses :=
    dict_get language_excuses category (dict_get language_excuses "work" ∅) in
  dict_get category_excuses urgency
    (dict_get category_excuses "medium" default_options).

(** [min(max(score, 5.0), 10.0)] *)
Definition clamp (score : Q) : Q := py_min (py_max score 5.0) 10.0.

(** The candidate list as the specification resolves it, by degrading
    the keys: an absent language to 'en', an absent category to 'work', an
    absent urgency to 'medium', and the hardcoded sentence when nothing
    is found. *)
Definition degrade {V} (d : gmap string V) (key fallback : string) : string :=
  if decide (is_Some (d !! key)) then key else fallback.

Definition degraded_options (db : table) (category urgency language : string)
    : list string :=
  let language' := degrade db language "en" in
  let by_category := default ∅ (db !! language') in
  let category' := degrade by_category category "work" in
  let by_urgency := default ∅ (by_category !! category') in
  let urgency' := degrade by_urgency urgency "medium" in
  default default_options (by_urgency !! urgency').

(** The base score by urgency as the specification lists it. *)
Definition urgency_base (urgency : string) : Q :=
  if decide (urgency = "low") then 6.5
  else if decide (urgency = "medium") then 7.5
  else if decide (urgency = "high") then 8.5
  else 7.5.

(** The jitter that [get_fallback_excuse] draws in world [w], after
    [random.choice] took one raw output. *)
Definition jitter_of (w : World) : Q :=
  uniform_of (-0.8) 1.2 (unit_of_raw (rng w 1%nat)).

(** The [try] block of [get_fallback_excuse]. *)
Definition get_fallback_excuse_try
    (self : t) (category scenario urgency language : string)
    : Py ExcuseData :=
  excuse_text ← random_choice (excuse_options self category urgency language);
  jitter ← random_uniform (-0.8) 1.2;
  let score := (dict_get base_score urgency 7.5 + jitter)%Q in
  mret {| excuse := excuse_text;
          believability_score := clamp score;
          category := category;
          scenario := scenario;
          urgency := urgency |}.

(** What its [except] block returns. *)
Definition sentinel (category scenario urgency : string) : ExcuseData :=
  {| excuse := sentinel_text;
     believability_score := 7.0;
     category := category;
     scenario := scenario;
     urgency := urgency |}.

(** [get_fallback_excuse]; its first step records the call. *)
Definition get_fallback_excuse
    (self : t) (category scenario urgency language : string)
    : Py ExcuseData :=
  _ ← trace (CallFallback category scenario urgency language);
  try_except
    (get_fallback_excuse_try self category scenario urgency language)
    (fun e => mret (sentinel category scenario urgency)).

Definition nl : string := String (Ascii.ascii_of_N 10) "".
Definition indent : string := "        ".

(** [d[k]] raises [KeyError] when [k] is not a key of [d]. *)
Definition subscript {V} (d : gmap string V) (k : string) : Py V :=
  match d !! k with
  | Some v => mret v
  | None => raise KeyError
  end.

(** The f-string of [generate_excuse]; [english] is
    [self.language_prompts['en']]. *)
Definition prompt_of (self : t) (english : string)
    (category scenario urgency language : string) : string :=
  String.concat ""
    [ nl;
      indent; dict_get (language_prompts self) language english; " for:"; nl;
      indent; nl;
      indent; "Category: "; category; nl;
      indent; "Situation: "; scenario; "  "; nl;
      indent; "Urgency: "; urgency; nl;
      indent; nl;
      indent; "Requirements:"; nl;
      indent; "- Sound natural and believable"; nl;
      indent; "- Appropriate for "; urgency; " urgency"; nl;
      indent; "- 2-3 sentences maximum"; nl;
      indent; "- Include specific but reasonable details"; nl;
      indent; "- Professional and harmless tone"; nl;
      indent; nl;
      indent; "Generate only the excuse text:"; nl;
      indent ].

Definition chat_request (prompt : string) : ChatRequest :=
  {| model := "gpt-3.5-turbo";
     messages :=
       [ ("system",
          "You are a helpful assistant that generates believable, professional excuses.");
         ("user", prompt) ];
     max_tokens := 150;
     temperature := 0.8 |}.

(** [openai.ChatCompletion.create(...)]: one call to the service. *)
Definition ChatCompletion_create (request : ChatRequest) : Py Response :=
  _ ← trace (CallCompletion request);
  answer ← gets (fun w : World => completion w request);
  match answer with
  | inl e => raise e
  | inr response => mret response
  end.

(** [response.choices[0].message['content'].strip()] *)
Definition extract_content (response : Response) : exn + string :=
  match choices response with
  | [] => inl IndexError
  | choice :: _ =>
      match message choice !! "content" with
      | None => inl KeyError
      | Some PyNone => inl AttributeError
      | Some (PyStr s) => inr (PyStr.strip s)
      end
  end.

Definition content_of (response : Response) : Py string :=
  match extract_content response with
  | inl e => raise e
  | inr s => mret s
  end.

(** The request that [generate_excuse] sends for its arguments. *)
Definition request_for (self : t) (category scenario urgency language : string)
    : ChatRequest :=
  chat_request
    (prompt_of self (dict_get (language_prompts self) "en" "")
       category scenario urgency language).

(** What the external call yields in world [w]: the excuse text, or the
    exception of the service or of reading its response. *)
Definition external_call (w : World) (request : ChatRequest) : exn + string :=
  match completion w request with
  | inl e => inl e
  | inr response => extract_content response
  end.

Definition generate_excuse
    (self : t) (category scenario urgency language : string)
    : Py ExcuseData :=
  key ← gets api_key;
  if decide (key = "")
  then get_fallback_excuse self category scenario urgency language
  else
    english ← subscript (language_prompts self) "en";
    let prompt :=
      prompt_of self english category scenario urgency language in
    try_except
      (response ← ChatCompletion_create (chat_request prompt);
       excuse_text ← content_of response;
       let believability_score :=
         calculate_believability excuse_text category urgency in
       mret {| excuse := excuse_text;
               believability_score := believability_score;
               category := category;
               scenario := scenario;
               urgency := urgency |})
      (fun e => get_fallback_excuse self category scenario urgency language).

End ExcuseGenerator.

(** ** The database session *)

(** The values of a JSON response. *)
Inductive jval : Type :=
  | JBool (b : bool)
  | JInt (z : Z)
  | JFloat (q : Q)
  | JStr (s : string).

(** The largest primary key of a table, if it has a row. *)
Definition max_key {A} (m : gmap Z A) : option Z :=
  match (map_to_list m).*1 with
  | [] => None
  | k :: ks => Some (foldr Z.max k ks)
  end.

(** The key an [INTEGER PRIMARY KEY] column gives a new row: 1 in an
    empty table, one more than the largest key otherwise. *)
Definition fresh_id {A} (m : gmap Z A) : Z :=
  match max_key m with
  | None => 1%Z
  | Some k => (k + 1)%Z
  end.

Definition set_users (f : gmap Z User.t -> gmap Z User.t) (d : DB) : DB :=
  {| users := f (users d); excuses := excuses d;
     proof_documents := proof_documents d; foreign_keys := foreign_keys d |}.

Definition set_excuses (f : gmap Z Excuse.t -> gmap Z Excuse.t) (d : DB) : DB :=
  {| users := users d; excuses := f (excuses d);
     proof_documents := proof_documents d; foreign_keys := foreign_keys d |}.

Definition set_proof_documents
    (f : gmap Z ProofDocument.t -> gmap Z ProofDocument.t) (d : DB) : DB :=
  {| users := users d; excuses := excuses d;
     proof_documents := f (proof_documents d); foreign_keys := foreign_keys d |}.

(** The store keeps a key as a signed 64-bit integer, so a row sits under
    such a key only. *)
Definition int64 (k : Z) : bool :=
  ((- 2 ^ 63 <=? k) && (k <? 2 ^ 63))%Z.

(** What [query.get(k)] gives when the table has no row under [k]: [None]
    for a key that the store can hold; for any other integer the query's
    parameter cannot be bound and [OverflowError] is raised. *)
Definition no_row {A : Type} (k : Z) : Py (option A) :=
  if int64 k then mret None else raise OverflowError.

(** [User.query.get(id)]: the row under [id], if there is one. *)
Definition User_query_get (id : Z) : Py (option User.t) :=
  d ← gets db;
  match users d !! id with
  | Some user => mret (Some user)
  | None => no_row id
  end.

(** [Excuse.query.get(id)]; [id] is [None] when the request has no
    [excuse_id], and no row has the key [None]. *)
Definition Excuse_query_get (id : option Z) : Py (option Excuse.t) :=
  match id with
  | Some k =>
      d ← gets db;
      match excuses d !! k with
      | Some excuse => mret (Some excuse)
      | None => no_row k
      end
  | None => mret None
  end.

(** Can the query bind the [excuse_id] of a request?  An absent one is
    bound as NULL. *)
Definition bindable (id : option Z) : bool :=
  match id with
  | Some k => int64 k
  | None => true
  end.

(** The key that a request's [excuse_id] denotes once a row was found
    under it. *)
Definition key_of (id : option Z) : Z := default 0%Z id.

(** Does a row of [User] already hold this primary key, this [username]
    or this [email]?  ([primary_key=True], [unique=True]) *)
Definition user_conflict (u : User.t) (m : gmap Z User.t) : bool :=
  bool_decide (is_Some (m !! User.id u))
  || existsb (fun kv => String.eqb (User.username kv.2) (User.username u)
                        || String.eqb (User.email kv.2) (User.email u))
       (map_to_list m).

(** [db.session.add(user); db.session.commit()] for a [User] whose key is
    given: the insert fails with [IntegrityError] on a conflict. *)
Definition add_user (u : User.t) : Py unit :=
  d ← gets db;
  if user_conflict u (users d) then raise IntegrityError
  else modify (set_db (set_users <[User.id u := u]>)).

(** [db.session.add(excuse); db.session.commit()] for an [Excuse] without
    a key: the store picks the key, and checks the foreign key when it
    enforces foreign keys.  Returns [excuse.id]. *)
Definition add_excuse (row : Z -> Excuse.t) : Py Z :=
  d ← gets db;
  let id := fresh_id (excuses d) in
  if foreign_keys d
     && negb (bool_decide (is_Some (users d !! Excuse.user_id (row id))))
  then raise IntegrityError
  else
    _ ← modify (set_db (set_excuses <[id := row id]>));
    mret id.

Definition with_proof_generated (e : Excuse.t) : Excuse.t :=
  {| Excuse.id := Excuse.id e; Excuse.user_id := Excuse.user_id e;
     Excuse.category := Excuse.category e;
     Excuse.scenario := Excuse.scenario e;
     Excuse.excuse_text := Excuse.excuse_text e;
     Excuse.believability_score := Excuse.believability_score e;
     Excuse.urgency_level := Excuse.urgency_level e;
     Excuse.language := Excuse.language e;
     Excuse.proof_generated := true;
     Excuse.times_used := Excuse.times_used e;
     Excuse.effectiveness_rating := Excuse.effectiveness_rating e;
     Excuse.is_favorite := Excuse.is_favorite e;
     Excuse.created_at := Excuse.created_at e;
     Excuse.last_used := Excuse.last_used e |}.

(** [db.session.add(proof_doc); excuse.proof_generated = True;
    db.session.commit()]: the insert and the update in one transaction. *)
Definition add_proof_and_mark
    (excuse : Excuse.t) (row : Z -> ProofDocument.t) : Py unit :=
  d ← gets db;
  let id := fresh_id (proof_documents d) in
  if foreign_keys d
     && negb (bool_decide
                (is_Some (excuses d !! ProofDocument.excuse_id (row id))))
  then raise IntegrityError
  else
    modify (set_db (fun d =>
      set_excuses <[Excuse.id excuse := with_proof_generated excuse]>
        (set_proof_documents <[id := row id]> d))).

(** ** The proof renderers, as far as the routes see them: the path they
    return and the file they leave.  What is drawn is not modelled. *)

(** Drawing and saving succeed or fail as a whole, as the disk decides. *)
Definition save (path : string) : Py unit :=
  ok ← gets (fun w : World => disk_ok w path);
  if ok : bool
  then modify (set_files (fun written => {[path]} ∪ written))
  else raise OSError.

Definition generate_fake_email (excuse : Excuse.t) : Py (option string) :=
  try_except
    (ts ← gets stamp;
     let filename :=
       "email_" +:+ pretty (Excuse.id excuse) +:+ "_" +:+ ts +:+ ".png" in
     let filepath := "static/proofs/" +:+ filename in
     _ ← save filepath;
     mret (Some filepath))
    (fun e => mret None).

Definition generate_fake_receipt (excuse : Excuse.t) : Py (option string) :=
  try_except
    (ts ← gets stamp;
     let filename :=
       "receipt_" +:+ pretty (Excuse.id excuse) +:+ "_" +:+ ts +:+ ".pdf" in
     let filepath := "static/proofs/" +:+ filename in
     _ ← random_randint 100000 999999;
     _ ← random_randint 1000 9999;
     _ ← save filepath;
     mret (Some filepath))
    (fun e => mret None).

Definition generate_medical_note (excuse : Excuse.t) : Py (option string) :=
  try_except
    (ts ← gets stamp;
     let filename :=
       "medical_" +:+ pretty (Excuse.id excuse) +:+ "_" +:+ ts +:+ ".pdf" in
     let filepath := "static/proofs/" +:+ filename in
     _ ← random_randint 10000 99999;
     _ ← random_randint 100000 999999;
     _ ← save filepath;
     mret (Some filepath))
    (fun e => mret None).

Definition generate_proof_document (excuse : Excuse.t) (proof_type : string)
    : Py (option string) :=
  try_except
    (if decide (proof_type = "email") then generate_fake_email excuse
     else if decide (proof_type = "receipt") then generate_fake_receipt excuse
     else if decide (proof_type = "medical_note")
          then generate_medical_note excuse
     else mret None)
    (fun e => mret None).

(** [os.path.basename]: what follows the last slash. *)
Fixpoint basename_from (cur : string) (path : string) : string :=
  match path with
  | EmptyString => cur
  | String c rest =>
      if Ascii.eqb c (Ascii.ascii_of_N 47) then basename_from "" rest
      else basename_from (cur +:+ String c "") rest
  end.

Definition basename (path : string) : string := basename_from "" path.

(** ** The routes *)

Module ExcuseRequest.
(** The JSON body of [/api/generate-excuse]; [None] for an absent key. *)
Record t := {
  category : option string;
  scenario : option string;
  urgency : option string;
  language : option string;
  user_id : option Z;
}.
End ExcuseRequest.

Module ProofRequest.
(** The JSON body of [/api/generate-proof]. *)
Record t := {
  excuse_id : option Z;
  proof_type : option string;
}.
End ProofRequest.

Definition demo_user (created : Z) : User.t :=
  {| User.id := 1; User.username := "demo_user";
     User.email := "demo@example.com"; User.phone := None;
     User.preferences := None; User.created_at := created |}.

(** The row [Excuse(user_id=..., ..., language=language)]; the other
    columns take their declared defaults. *)
Definition new_excuse
    (user_id : Z) (category scenario urgency language : string)
    (excuse_data : ExcuseData) (created : Z) (id : Z) : Excuse.t :=
  {| Excuse.id := id;
     Excuse.user_id := user_id;
     Excuse.category := category;
     Excuse.scenario := scenario;
     Excuse.excuse_text := excuse excuse_data;
     Excuse.believability_score := believability_score excuse_data;
     Excuse.urgency_level := urgency;
     Excuse.language := language;
     Excuse.proof_generated := false;
     Excuse.times_used := 0;
     Excuse.effectiveness_rating := 0.0;
     Excuse.is_favorite := false;
     Excuse.created_at := created;
     Excuse.last_used := None |}.

(** [data.get('user_id', 1)] *)
Definition requested_user (data : ExcuseRequest.t) : Z :=
  default 1%Z (ExcuseRequest.user_id data).

(** [POST /api/generate-excuse] *)
Definition generate_excuse
    (excuse_generator : ExcuseGenerator.t) (data : ExcuseRequest.t)
    : Py (gmap string jval) :=
  let category := default "work" (ExcuseRequest.category data) in
  let scenario := default "general" (ExcuseRequest.scenario data) in
  let urgency := default "medium" (ExcuseRequest.urgency data) in
  let language := default "en" (ExcuseRequest.language data) in
  let user_id := requested_user data in
  excuse_data ←
    ExcuseGenerator.generate_excuse excuse_generator
      category scenario urgency language;
  user ← User_query_get user_id;
  _ ← match user with
      | None => created ← gets now; add_user (demo_user created)
      | Some _ => mret tt
      end;
  created ← gets now;
  excuse_id ←
    add_excuse
      (new_excuse user_id category scenario urgency language excuse_data
         created);
  mret {[ "success" := JBool true;
          "excuse_id" := JInt excuse_id;
          "excuse" := JStr (excuse excuse_data);
          "believability_score" := JFloat (believability_score excuse_data);
          "category" := JStr category;
          "urgency" := JStr urgency ]}.

(** [POST /api/generate-proof] *)
Definition generate_proof (data : ProofRequest.t) : Py (gmap string jval) :=
  let excuse_id := ProofRequest.excuse_id data in
  let proof_type := default "email" (ProofRequest.proof_type data) in
  excuse ← Excuse_query_get excuse_id;
  match excuse with
  | None =>
      mret {[ "success" := JBool false;
              "error" := JStr "Excuse not found" ]}
  | Some excuse =>
      proof_path ← generate_proof_document excuse proof_type;
      match proof_path with
      | Some proof_path =>   (* a path is never the empty string *)
          generated ← gets now;
          _ ← add_proof_and_mark excuse (fun id =>
                {| ProofDocument.id := id;
                   ProofDocument.excuse_id := key_of excuse_id;
                   ProofDocument.document_type := proof_type;
                   ProofDocument.file_path := proof_path;
                   ProofDocument.generated_at := generated |});
          mret {[ "success" := JBool true;
                  "proof_path" := JStr proof_path;
                  "download_url" :=
                    JStr ("/static/proofs/" +:+ basename proof_path) ]}
      | None =>
          mret {[ "success" := JBool false;
                  "error" := JStr "Failed to generate proof" ]}
      end
  end.

(** ** Blanks and words *)

(** A string of whitespace only, and one without any. *)
Fixpoint all_space (s : string) : bool :=
  match s with
  | EmptyString => true
  | String c s' => PyStr.isspace c && all_space s'
  end.

Fixpoint no_space (s : string) : bool :=
  match s with
  | EmptyString => true
  | String c s' => negb (PyStr.isspace c) && no_space s'
  end.

(** ** Building the generator *)

(** How [__init__] fared when it read [excuses.json]. *)
Inductive LoadOutcome : Type :=
  | Loaded (content : ExcuseGenerator.table)
  | FileNotFound
  | LoadFailed.

(** [ExcuseGenerator()]: the table read, the minimal one when the file is
    not there, the empty one on any other failure. *)
Definition new_generator (outcome : LoadOutcome) : ExcuseGenerator.t :=
  ExcuseGenerator.init
    match outcome with
    | Loaded content => content
    | FileNotFound => ExcuseGenerator.minimal_fallbacks
    | LoadFailed => ∅
    end.

(** ** What the renderers write *)

(** The body loop of [generate_fake_email] over the words left: [y_pos]
    and [line] are the loop's variables; the result is the [draw.text]
    calls made (their y and text) and the variables at the end. *)
Fixpoint wrap_words (words : list string) (y_pos : Z) (line : string)
    : list (Z * string) * (Z * string) :=
  match words with
  | [] => ([], (y_pos, line))
  | word :: words' =>
      if (Z.of_nat (String.length (line +:+ word)) <? 70)%Z
      then wrap_words words' y_pos (line +:+ word +:+ " ")
      else
        let rest := wrap_words words' (y_pos + 30)%Z (word +:+ " ") in
        ((y_pos, line) :: rest.1, rest.2)
  end.

(** The body lines that [generate_fake_email] draws at x = 30: those of
    the loop, and the line left when it is not empty. *)
Definition email_body_lines (excuse_text : string) : list (Z * string) :=
  let run := wrap_words (PyStr.split excuse_text) 150 "" in
  run.1 ++ (if decide (run.2.2 = "") then [] else [run.2]).

(** The two footer lines, 50 and 80 below the last [y_pos]. *)
Definition email_footer (excuse_text : string) : list (Z * string) :=
  let y_pos := (wrap_words (PyStr.split excuse_text) 150 "").2.1 in
  [((y_pos + 50)%Z, "Best regards,"); ((y_pos + 80)%Z, "Emergency Contact")].

(** Several strings put end to end. *)
Definition joined (parts : list string) : string :=
  foldr String.append "" parts.

(** [s[:n]] *)
Fixpoint str_take (n : nat) (s : string) : string :=
  match n, s with
  | S n', String c s' => String c (str_take n' s')
  | _, _ => EmptyString
  end.

(** The description line of [generate_fake_receipt]. *)
Definition receipt_description (excuse_text : string) : string :=
  "Description: " +:+ str_take 60 excuse_text +:+ "...".

(** The file that the renderer of a proof type writes for an excuse, at
    the time stamp [ts]; none for a type that has no renderer. *)
Definition proof_file (proof_type : string) (excuse : Excuse.t) (ts : string)
    : option string :=
  if decide (proof_type = "email")
  then Some ("static/proofs/"
             +:+ ("email_" +:+ pretty (Excuse.id excuse) +:+ "_" +:+ ts
                  +:+ ".png"))
  else if decide (proof_type = "receipt")
  then Some ("static/proofs/"
             +:+ ("receipt_" +:+ pretty (Excuse.id excuse) +:+ "_" +:+ ts
                  +:+ ".pdf"))
  else if decide (proof_type = "medical_note")
  then Some ("static/proofs/"
             +:+ ("medical_" +:+ pretty (Excuse.id excuse) +:+ "_" +:+ ts
                  +:+ ".pdf"))
  else None.

(** ** The voice route *)

Module VoiceRequest.
(** The JSON body of [/api/voice-excuse]. *)
Record t := { excuse_id : option Z }.
End VoiceRequest.

Definition tts_languages : list string := ["en"; "hi"; "es"; "fr"; "de"].

(** [excuse.language if excuse.language in [...] else 'en'] *)
Definition tts_language_of (language : string) : string :=
  if bool_decide (language ∈ tts_languages) then language else "en".

(** The speech backend: what [os.makedirs], [gTTS(text, lang)] and
    [tts.save(path)] together raise, if anything, and [str(e)]. *)
Record Speech := {
  synthesize : string -> string -> string -> option exn;  (* text, lang, path *)
  str_of : exn -> string;
}.

Definition gtts_save (speech : Speech) (text lang path : string) : Py unit :=
  match synthesize speech text lang path with
  | Some e => raise e
  | None => modify (set_files (fun written => {[path]} ∪ written))
  end.

(** [POST /api/voice-excuse]; [tts_available] is the module's flag. *)
Definition voice_excuse
    (tts_available : bool) (speech : Speech) (data : VoiceRequest.t)
    : Py (gmap string jval) :=
  let excuse_id := VoiceRequest.excuse_id data in
  excuse ← Excuse_query_get excuse_id;
  match excuse with
  | None =>
      mret {[ "success" := JBool false;
              "error" := JStr "Excuse not found" ]}
  | Some excuse =>
      if negb tts_available
      then
        mret {[ "success" := JBool false;
                "error" :=
                  JStr "Voice features not available. Install with: pip install gTTS pygame" ]}
      else
        try_except
          (ts ← gets stamp;
           let audio_filename :=
             "excuse_" +:+ pretty (key_of excuse_id) +:+ "_" +:+ ts
             +:+ ".mp3" in
           let audio_path := "static/audio/" +:+ audio_filename in
           let tts_language := tts_language_of (Excuse.language excuse) in
           _ ← gtts_save speech (Excuse.excuse_text excuse) tts_language
                 audio_path;
           mret {[ "success" := JBool true;
                   "audio_url" := JStr ("/" +:+ audio_path);
                   "message" :=
                     JStr ("Voice file generated successfully in "
                           +:+ tts_language +:+ "!") ]})
          (fun e =>
             mret {[ "success" := JBool false;
                     "error" :=
                       JStr ("Voice generation failed: "
                             +:+ str_of speech e) ]})
  end.

(** ** What the store keeps *)

(** Every row sits under its own primary key. *)
Definition well_keyed (d : DB) : Prop :=
  (forall k u, users d !! k = Some u -> User.id u = k)
  /\ (forall k e, excuses d !! k = Some e -> Excuse.id e = k)
  /\ (forall k p, proof_documents d !! k = Some p -> ProofDocument.id p = k).

(** Every stored score lies between 0 and 10. *)
Definition scores_bounded (d : DB) : Prop :=
  forall k e,
    excuses d !! k = Some e ->
    (0 <= Excuse.believability_score e <= 10)%Q.

(** Every proof document belongs to a stored excuse. *)
Definition proofs_owned (d : DB) : Prop :=
  forall k p,
    proof_documents d !! k = Some p ->
    is_Some (excuses d !! ProofDocument.excuse_id p).

Definition store_ok (d : DB) : Prop :=
  well_keyed d /\ scores_bounded d /\ proofs_owned d.

(** ** Sample worlds *)

Definition empty_db : DB :=
  {| users := ∅; excuses := ∅; proof_documents := ∅; foreign_keys := false |}.

(** No credential, a generator that always gives 0, an empty store. *)
Definition offline_world : World :=
  {| rng := fun _ => 0%N; api_key := "";
     completion := fun _ => inl (ServiceError "unreachable");
     db := empty_db; now := 0; stamp := "20240101_000000";
     disk_ok := fun _ => true; files := ∅; log := [] |}.

(** A credential, and a service that refuses every request. *)
Definition refused_world : World :=
  {| rng := fun _ => 0%N; api_key := "sk-test";
     completion := fun _ => inl (ServiceError "quota exceeded");
     db := empty_db; now := 0; stamp := "20240101_000000";
     disk_ok := fun _ => true; files := ∅; log := [] |}.

(** A table whose en/work/high list is empty. *)
Definition empty_high : ExcuseGenerator.t :=
  ExcuseGenerator.init {[ "en" := {[ "work" := {[ "high" := [] ]} ]} ]}.

Definition minimal : ExcuseGenerator.t :=
  ExcuseGenerator.init ExcuseGenerator.minimal_fallbacks.

(** The store after a first request made the demo user, and a request
    on behalf of user 2, who has no row. *)
Definition demo_db : DB :=
  {| users := {[ 1%Z := demo_user 0 ]}; excuses := ∅; proof_documents := ∅;
     foreign_keys := false |}.

Definition demo_world : World :=
  {| rng := fun _ => 0%N; api_key := "";
     completion := fun _ => inl (ServiceError "unreachable");
     db := demo_db; now := 60; stamp := "20240101_000100";
     disk_ok := fun _ => true; files := ∅; log := [] |}.

Definition request_of_user (user_id : Z) : ExcuseRequest.t :=
  {| ExcuseRequest.category := Some "work";
     ExcuseRequest.scenario := Some "late again";
     ExcuseRequest.urgency := Some "high";
     ExcuseRequest.language := Some "en";
     ExcuseRequest.user_id := Some user_id |}.

(** A credential, and a service that answers every request with one
    choice whose content has blanks around it. *)
Definition answering_world : World :=
  {| rng := fun _ => 0%N; api_key := "sk-test";
     completion := fun _ =>
       inr {| choices :=
                [ {| message :=
                       {[ "role" := PyStr "assistant";
                          "content" :=
                            PyStr "  My car broke down near the hospital.  " ]}
                  |} ] |};
     db := empty_db; now := 0; stamp := "20240101_000000";
     disk_ok := fun _ => true; files := ∅; log := [] |}.

(** A store with one excuse of the demo user, a disk that takes every
    file, and the same with a disk that takes none. *)
Definition stored_excuse : Excuse.t :=
  new_excuse 1 "work" "late again" "high" "en"
    {| excuse := "I have an emergency that requires immediate attention.";
       believability_score := 7.7; category := "work";
       scenario := "late again"; urgency := "high" |} 0 1.

Definition one_excuse_db : DB :=
  {| users := {[ 1%Z := demo_user 0 ]};
     excuses := {[ 1%Z := stored_excuse ]};
     proof_documents := ∅; foreign_keys := true |}.

Definition one_excuse_world : World :=
  {| rng := fun _ => 0%N; api_key := "";
     completion := fun _ => inl (ServiceError "unreachable");
     db := one_excuse_db; now := 120; stamp := "20240101_000200";
     disk_ok := fun _ => true; files := ∅; log := [] |}.

Definition full_disk_world : World :=
  {| rng := fun _ => 0%N; api_key := "";
     completion := fun _ => inl (ServiceError "unreachable");
     db := one_excuse_db; now := 120; stamp := "20240101_000200";
     disk_ok := fun _ => false; files := ∅; log := [] |}.

(** A speech backend that takes every text, one that is out of reach,
    and an excuse in a language the backend is not asked for. *)
Definition working_speech : Speech :=
  {| synthesize := fun _ _ _ => None; str_of := fun _ => "" |}.




(** A word of seventy letters. *)
Definition seventy_letters : string :=
  "aaaaaaaaaaaaaaaaaaaaaaaaaaaaaaaaaaaaaaaaaaaaaaaaaaaaaaaaaaaaaaaaaaaaaa".

(** * Properties *)

(** ** Python's [min] and [max] *)

Section MinMax.

Local Open Scope Q_scope.

Lemma py_min_cases (a b : Q) :
  (py_min a b = a /\ a <= b) \/ (py_min a b = b /\ b < a).
Proof.
  unfold py_min. destruct (Qcompare_spec b a) as [H | H | H].
  - left. split; [reflexivity | rewrite H; apply Qle_refl].
  - right. split; [reflexivity | exact H].
  - left. split; [reflexivity | apply Qlt_le_weak, H].
Qed.

Lemma py_max_cases (a b : Q) :
  (py_max a b = a /\ b <= a) \/ (py_max a b = b /\ a < b).
Proof.
  unfold py_max. destruct (Qcompare_spec b a) as [H | H | H].
  - left. split; [reflexivity | rewrite H; apply Qle_refl].
  - left. split; [reflexivity | apply Qlt_le_weak, H].
  - right. split; [reflexivity | exact H].
Qed.

Lemma py_min_le_l (a b : Q) : py_min a b <= a.
Proof. destruct (py_min_cases a b) as [[-> H] | [-> H]]; lra. Qed.

Lemma py_min_le_r (a b : Q) : py_min a b <= b.
Proof. destruct (py_min_cases a b) as [[-> H] | [-> H]]; lra. Qed.

Lemma py_min_glb (a b c : Q) : c <= a -> c <= b -> c <= py_min a b.
Proof. intros Ha Hb. destruct (py_min_cases a b) as [[-> H] | [-> H]]; lra. Qed.


Lemma py_min_compat (a a' b b' : Q) :
  a == a' -> b == b' -> py_min a b == py_min a' b'.
Proof.
  intros Haa Hbb.
  destruct (py_min_cases a b) as [[-> H] | [-> H]];
    destruct (py_min_cases a' b') as [[-> H'] | [-> H']]; lra.
Qed.

Lemma py_min_Qmin (a b : Q) : py_min a b == Qmin a b.
Proof.
  destruct (py_min_cases a b) as [[-> H] | [-> H]].
  - symmetry. apply Q.min_l, H.
  - symmetry. apply Q.min_r. lra.
Qed.

Lemma py_max_ge_r (a b : Q) : b <= py_max a b.
Proof. destruct (py_max_cases a b) as [[-> H] | [-> H]]; lra. Qed.

Lemma py_max_ge_l (a b : Q) : a <= py_max a b.
Proof. destruct (py_max_cases a b) as [[-> H] | [-> H]]; lra. Qed.

End MinMax.

(** ** The scorer *)

Section ScorerFacts.

Import Scorer.
Local Open Scope Q_scope.

Lemma py_sum_from (acc : Z) (l : list Z) :
  foldl Z.add acc l = (acc + foldl Z.add 0 l)%Z.
Proof.
  revert acc. induction l as [| x l IH]; intros acc; simpl.
  - lia.
  - rewrite IH, (IH (0 + x)%Z). lia.
Qed.

Lemma py_sum_ones {A} (l : list A) :
  py_sum (map (fun _ => 1%Z) l) = Z.of_nat (length l).
Proof.
  unfold py_sum. induction l as [| x l IH]; [reflexivity |].
  cbn [map foldl length]. rewrite py_sum_from, IH. lia.
Qed.

Lemma specificity_count (text : string) :
  specificity text
  = Z.of_nat (length (List.filter
      (fun word => PyStr.contains word (PyStr.lower text)) specific_words)).
Proof. apply py_sum_ones. Qed.

Lemma specificity_range (text : string) : (0 <= specificity text <= 10)%Z.
Proof.
  rewrite specificity_count.
  pose proof (List.filter_length_le
    (fun word => PyStr.contains word (PyStr.lower text)) specific_words) as H.
  change (length specific_words) with 10%nat in H. lia.
Qed.

(** The function is 5.0 plus its three bonuses, capped at 10. *)
Lemma calculate_believability_sum (text category urgency : string) :
  calculate_believability text category urgency
  == py_min (5 + length_bonus (len (PyStr.split text))
             + specificity_bonus (specificity text)
             + urgency_bonus (urgency_aligned text urgency)) 10.
Proof.
  unfold calculate_believability, length_bonus, urgency_bonus, specificity_bonus.
  apply py_min_compat; [| lra].
  destruct (_ && _)%bool; [| destruct (_ || _)%bool];
    destruct (urgency_aligned text urgency); lra.
Qed.

Lemma length_bonus_range (n : Z) : -1 <= length_bonus n <= 1.5.
Proof.
  unfold length_bonus.
  destruct (_ && _)%bool; [| destruct (_ || _)%bool]; lra.
Qed.

Lemma specificity_bonus_range (k : Z) :
  (0 <= k)%Z -> 0 <= specificity_bonus k <= 2.
Proof.
  intros Hk. unfold specificity_bonus. split.
  - apply py_min_glb; [| lra].
    assert (0 <= inject_Z k) by (unfold Qle; simpl; lia). lra.
  - pose proof (py_min_le_r (inject_Z k * 0.5) 2.0). lra.
Qed.

Lemma urgency_bonus_range (b : bool) : 0 <= urgency_bonus b <= 1.5.
Proof. destruct b; unfold urgency_bonus; lra. Qed.

End ScorerFacts.

Lemma calculate_believability_range (text category urgency : string) :
  (0 <= Scorer.calculate_believability text category urgency <= 10)%Q.
Proof.
  rewrite calculate_believability_sum.
  pose proof (length_bonus_range (len (PyStr.split text))) as Hl.
  pose proof (specificity_bonus_range _ (proj1 (specificity_range text))) as Hs.
  pose proof (urgency_bonus_range (Scorer.urgency_aligned text urgency)) as Hu.
  split.
  - apply py_min_glb; lra.
  - apply py_min_le_r.
Qed.

(** ** The rational scorer is the float scorer *)

(** Python's float arithmetic gives exactly the rational score: every
    value met on the way is a multiple of one half below 16. *)
Lemma calculate_believability_binary64 (text category urgency : string) :
  Binary64.calculate_believability text category urgency
  = Binary64.of_Q (Scorer.calculate_believability text category urgency).
Proof.
  unfold Binary64.calculate_believability, Scorer.calculate_believability.
  pose proof (specificity_range text) as Hk.
  generalize dependent (Scorer.specificity text). intros k Hk.
  generalize (Scorer.urgency_aligned text urgency). intros aligned.
  generalize (len (PyStr.split text)). intros n.
  assert (k = 0 \/ k = 1 \/ k = 2 \/ k = 3 \/ k = 4 \/ k = 5 \/ k = 6
          \/ k = 7 \/ k = 8 \/ k = 9 \/ k = 10)%Z as Hcases by lia.
  clear Hk.
  destruct ((10 <=? n) && (n <=? 40))%Z; [| destruct ((n <? 5) || (60 <? n))%Z];
    destruct aligned;
    repeat (destruct Hcases as [-> | Hcases]; [vm_compute; reflexivity |]);
    subst k; vm_compute; reflexivity.
Qed.

(** C1.  For every text, category and urgency the believability score
    lies between 0 and 10: the cap at 10.0 is explicit, and the floor
    holds because the score never falls below 5.0 - 1.0.  This holds of
    the rational score and of the float that Python computes. *)
Theorem calculate_believability_in_0_10 (text category urgency : string) :
  (0 <= Scorer.calculate_believability text category urgency <= 10)%Q
  /\ Binary64.within_0_10
       (Binary64.calculate_believability text category urgency) = true.
Proof.
  split; [apply calculate_believability_range |].
  unfold Binary64.calculate_believability.
  pose proof (specificity_range text) as Hk.
  generalize dependent (Scorer.specificity text). intros k Hk.
  generalize (Scorer.urgency_aligned text urgency). intros aligned.
  generalize (len (PyStr.split text)). intros n.
  assert (k = 0 \/ k = 1 \/ k = 2 \/ k = 3 \/ k = 4 \/ k = 5 \/ k = 6
          \/ k = 7 \/ k = 8 \/ k = 9 \/ k = 10)%Z as Hcases by lia.
  clear Hk.
  destruct ((10 <=? n) && (n <=? 40))%Z; [| destruct ((n <? 5) || (60 <? n))%Z];
    destruct aligned;
    repeat (destruct Hcases as [-> | Hcases]; [vm_compute; reflexivity |]);
    subst k; vm_compute; reflexivity.
Qed.

(** ** The scorer against its specification *)

Section ScorerRefinement.

Import Scorer.
Local Open Scope Q_scope.

Lemma append_char_nonempty (cur : string) (c : Ascii.ascii) :
  cur +:+ String c "" <> "".
Proof. destruct cur; discriminate. Qed.

(** [split] yields one word per word start. *)
Lemma split_from_length (s cur : string) :
  length (PyStr.split_from cur s)
  = (Reference.word_starts (bool_decide (cur = "")) s
     + (if decide (cur = "") then 0 else 1))%nat.
Proof.
  revert cur. induction s as [| c s IH]; intros cur; cbn [PyStr.split_from
    Reference.word_starts].
  - destruct (decide (cur = "")); reflexivity.
  - destruct (PyStr.isspace c) eqn:Hc; cbn [negb andb].
    + destruct (decide (cur = "")) as [-> | Hne]; cbn [length]; rewrite IH.
      * rewrite andb_false_r, bool_decide_eq_true_2, decide_True by done. lia.
      * rewrite andb_false_r, bool_decide_eq_true_2, decide_True by done. lia.
    + rewrite IH, (bool_decide_eq_false_2 _ (append_char_nonempty cur c)).
      destruct (decide (cur +:+ String c "" = "")) as [E | _];
        [destruct (append_char_nonempty _ _ E) |].
      destruct (decide (cur = "")) as [-> | Hne].
      * rewrite bool_decide_eq_true_2 by done. cbn [andb]. lia.
      * rewrite (bool_decide_eq_false_2 _ Hne). cbn [andb]. lia.
Qed.

Lemma split_word_count (text : string) :
  length (PyStr.split text) = Reference.word_count text.
Proof.
  unfold PyStr.split, Reference.word_count.
  rewrite split_from_length, bool_decide_eq_true_2, decide_True by done. lia.
Qed.

Lemma length_bonus_reference (n : nat) :
  length_bonus (Z.of_nat n) = Reference.word_count_bonus n.
Proof.
  unfold length_bonus, Reference.word_count_bonus.
  destruct (decide (10 ≤ n ≤ 40)%nat) as [H | H].
  - replace ((10 <=? Z.of_nat n) && (Z.of_nat n <=? 40))%Z with true;
      [reflexivity |].
    symmetry. apply andb_true_intro. split; apply Z.leb_le; lia.
  - replace ((10 <=? Z.of_nat n) && (Z.of_nat n <=? 40))%Z with false.
    2:{ symmetry. apply andb_false_iff.
        destruct (decide (10 ≤ n)%nat);
          [right; apply Z.leb_gt | left; apply Z.leb_gt]; lia. }
    destruct (decide (n < 5 ∨ 60 < n)%nat) as [H' | H'].
    + replace ((Z.of_nat n <? 5) || (60 <? Z.of_nat n))%Z with true;
        [reflexivity |].
      symmetry. apply orb_true_iff.
      destruct H'; [left | right]; apply Z.ltb_lt; lia.
    + replace ((Z.of_nat n <? 5) || (60 <? Z.of_nat n))%Z with false;
        [reflexivity |].
      symmetry. apply orb_false_iff. split; apply Z.ltb_ge; lia.
Qed.

(** The vocabulary and the keywords are in lower case already, so
    lowering the text alone compares without regard to case. *)
Lemma vocabulary_lowercase : Forall Reference.lowercase Reference.vocabulary.
Proof. repeat constructor. Qed.

Lemma keywords_lowercase (u : Reference.Urgency) :
  Forall Reference.lowercase (Reference.keywords u).
Proof. destruct u; repeat constructor. Qed.

Lemma matches_ci_lowercase (word text : string) :
  Reference.lowercase word ->
  Reference.matches_ci word text = PyStr.contains word (PyStr.lower text).
Proof. intros H. unfold Reference.matches_ci. rewrite H. reflexivity. Qed.

Lemma filter_matches (text : string) (words : list string) :
  Forall Reference.lowercase words ->
  List.filter (fun word => Reference.matches_ci word text) words
  = List.filter (fun word => PyStr.contains word (PyStr.lower text)) words.
Proof.
  induction 1 as [| w ws Hw _ IH]; [reflexivity |].
  cbn [List.filter]. rewrite IH, (matches_ci_lowercase _ _ Hw). reflexivity.
Qed.

Lemma existsb_matches (text : string) (words : list string) :
  Forall Reference.lowercase words ->
  existsb (fun word => Reference.matches_ci word text) words
  = existsb (fun word => PyStr.contains word (PyStr.lower text)) words.
Proof.
  induction 1 as [| w ws Hw _ IH]; [reflexivity |].
  cbn [existsb]. rewrite IH, (matches_ci_lowercase _ _ Hw). reflexivity.
Qed.

Lemma specificity_reference (text : string) :
  specificity text = Z.of_nat (Reference.match_count text).
Proof.
  rewrite specificity_count. unfold Reference.match_count.
  rewrite (filter_matches text _ vocabulary_lowercase). reflexivity.
Qed.

Lemma urgency_words_reference (u : Reference.Urgency) :
  dict_get urgency_words (Reference.urgency_name u) []
  = Reference.keywords u.
Proof. destruct u; reflexivity. Qed.

Lemma urgency_aligned_reference (text : string) (u : Reference.Urgency) :
  urgency_aligned text (Reference.urgency_name u)
  = existsb (fun word => Reference.matches_ci word text)
      (Reference.keywords u).
Proof.
  unfold urgency_aligned.
  rewrite urgency_words_reference, (existsb_matches _ _ (keywords_lowercase u)).
  reflexivity.
Qed.

End ScorerRefinement.

(** C2.  For the three urgency levels the scorer computes the reference
    score: 5.0, plus 1.5 for 10 to 40 words or minus 1.0 for fewer than 5
    or more than 60, plus 0.5 for each vocabulary word found without
    regard to case up to 2.0, plus a flat 1.5 when a keyword of the
    urgency level is found, capped at 10.0; and the category plays no
    part, whatever the urgency. *)
Theorem calculate_believability_reference
    (text category : string) (u : Reference.Urgency) :
  (Scorer.calculate_believability text category (Reference.urgency_name u)
   == Reference.score text u)%Q
  /\ (forall (urgency category' : string),
        Scorer.calculate_believability text category' urgency
        = Scorer.calculate_believability text category urgency).
Proof.
  split; [| reflexivity].
  rewrite calculate_believability_sum, py_min_Qmin.
  unfold Reference.score, Reference.specificity_bonus, Reference.urgency_bonus,
    len, Scorer.specificity_bonus.
  rewrite split_word_count, length_bonus_reference, specificity_reference,
    urgency_aligned_reference, py_min_Qmin.
  apply Q.min_compat; [| reflexivity].
  assert ((inject_Z (Z.of_nat (Reference.match_count text)) * 0.5
           == 0.5 * inject_Z (Z.of_nat (Reference.match_count text)))%Q) as ->
    by ring.
  unfold Scorer.urgency_bonus.
  destruct (existsb _ _); lra.
Qed.

(** ** Monotonicity in the specificity count *)






(** ** Running the random generator and the fallback selector *)

Section FallbackRuns.

Import ExcuseGenerator.
Local Open Scope Q_scope.

Lemma bind_run {A B} (c : Py A) (k : A -> Py B) (w : World) :
  (c ≫= k) w
  = match c w with
    | (Ok a, w') => k a w'
    | (Raised e, w') => (Raised e, w')
    end.
Proof. reflexivity. Qed.

Lemma chosen_elem_of {A} (seq : list A) (w : World) (x : A) :
  chosen seq w = Some x -> x ∈ seq.
Proof. intros H. apply list_elem_of_lookup. eexists. exact H. Qed.

Lemma chosen_is_Some {A} (seq : list A) (w : World) :
  seq <> [] -> is_Some (chosen seq w).
Proof.
  intros Hne. apply lookup_lt_is_Some. apply Nat.mod_upper_bound.
  destruct seq; [congruence | discriminate].
Qed.

Lemma random_choice_run {A} (seq : list A) (w : World) (x : A) :
  chosen seq w = Some x -> random_choice seq w = (Ok x, drawn w).
Proof.
  intros H. destruct seq as [| y seq]; [discriminate H |].
  unfold random_choice. rewrite bind_run. unfold randbelow.
  fold (drawn w). unfold chosen in H. rewrite H. reflexivity.
Qed.

Lemma random_choice_empty {A} (w : World) :
  random_choice (@nil A) w = (Raised IndexError, w).
Proof. reflexivity. Qed.

Lemma unit_of_raw_range (raw : N) : 0 <= unit_of_raw raw < 1.
Proof.
  unfold unit_of_raw.
  assert (raw `mod` 2 ^ 53 < 2 ^ 53)%N as Hlt by (apply N.mod_lt; discriminate).
  set (k := (raw `mod` 2 ^ 53)%N) in *.
  assert (0 <= Z.of_N k < 2 ^ 53)%Z as [H0 H1] by lia.
  assert (0 < inject_Z (2 ^ 53)) as Hpos by reflexivity.
  split.
  - apply Qle_shift_div_l; [exact Hpos |]. rewrite Qmult_0_l.
    unfold Qle; simpl; lia.
  - apply Qlt_shift_div_r; [exact Hpos |]. rewrite Qmult_1_l.
    rewrite <- Zlt_Qlt. exact H1.
Qed.

Lemma jitter_range (w : World) : -0.8 <= jitter_of w <= 1.2.
Proof.
  unfold jitter_of, uniform_of.
  pose proof (unit_of_raw_range (rng w 1%nat)) as [H0 H1]. split; lra.
Qed.

Lemma clamp_range (score : Q) : 5 <= clamp score <= 10.
Proof.
  unfold clamp. pose proof (py_max_ge_r score 5.0) as Hmax.
  pose proof (py_min_le_r (py_max score 5.0) 10.0) as Hmin. split.
  - apply py_min_glb; lra.
  - lra.
Qed.

Lemma clamp_Qmin_Qmax (score : Q) : clamp score == Qmin (Qmax score 5) 10.
Proof.
  unfold clamp. rewrite py_min_Qmin.
  apply Q.min_compat; [| lra].
  destruct (py_max_cases score 5.0) as [[-> H] | [-> H]].
  - symmetry. apply Q.max_l. lra.
  - rewrite Q.max_r by lra. reflexivity.
Qed.

Lemma base_score_urgency_base (urgency : string) :
  dict_get base_score urgency 7.5 = urgency_base urgency.
Proof.
  unfold urgency_base, dict_get, base_score.
  destruct (decide (urgency = "low")) as [-> | Hl]; [reflexivity |].
  destruct (decide (urgency = "medium")) as [-> | Hm]; [reflexivity |].
  destruct (decide (urgency = "high")) as [-> | Hh]; [reflexivity |].
  rewrite !lookup_insert_ne, lookup_singleton_ne by congruence. reflexivity.
Qed.

(** The run of the [try] block when a candidate is there to take. *)
Lemma get_fallback_excuse_try_run
    (self : t) (category scenario urgency language text : string) (w : World) :
  chosen (excuse_options self category urgency language) w = Some text ->
  get_fallback_excuse_try self category scenario urgency language w
  = (Ok {| excuse := text;
           believability_score :=
             clamp (dict_get base_score urgency 7.5 + jitter_of w);
           category := category; scenario := scenario; urgency := urgency |},
     drawn (drawn w)).
Proof.
  intros H. unfold get_fallback_excuse_try.
  rewrite bind_run, (random_choice_run _ _ _ H). reflexivity.
Qed.

Lemma get_fallback_excuse_try_empty
    (self : t) (category scenario urgency language : string) (w : World) :
  excuse_options self category urgency language = [] ->
  get_fallback_excuse_try self category scenario urgency language w
  = (Raised IndexError, w).
Proof.
  intros H. unfold get_fallback_excuse_try. rewrite bind_run, H. reflexivity.
Qed.

Lemma get_fallback_excuse_run
    (self : t) (category scenario urgency language : string) (w : World) :
  get_fallback_excuse self category scenario urgency language w
  = try_except
      (get_fallback_excuse_try self category scenario urgency language)
      (fun _ => mret (sentinel category scenario urgency))
      (set_log (cons (CallFallback category scenario urgency language)) w).
Proof. reflexivity. Qed.

(** A candidate is taken from a non-empty list, and scored. *)
Lemma get_fallback_excuse_selected
    (self : t) (category scenario urgency language : string) (w : World) :
  excuse_options self category urgency language <> [] ->
  exists text,
    text ∈ excuse_options self category urgency language
    /\ get_fallback_excuse self category scenario urgency language w
       = (Ok {| excuse := text;
                believability_score :=
                  clamp (dict_get base_score urgency 7.5 + jitter_of w);
                category := category; scenario := scenario;
                urgency := urgency |},
          drawn (drawn
            (set_log (cons (CallFallback category scenario urgency language))
               w))).
Proof.
  intros Hne.
  set (w1 := set_log (cons (CallFallback category scenario urgency language)) w).
  destruct (chosen_is_Some _ w1 Hne) as [text Htext].
  exists text. split; [exact (chosen_elem_of _ _ _ Htext) |].
  rewrite get_fallback_excuse_run. fold w1. unfold try_except.
  rewrite (get_fallback_excuse_try_run _ _ _ _ _ _ _ Htext). reflexivity.
Qed.

(** With an empty list the sentinel is returned. *)
Lemma get_fallback_excuse_empty
    (self : t) (category scenario urgency language : string) (w : World) :
  excuse_options self category urgency language = [] ->
  get_fallback_excuse self category scenario urgency language w
  = (Ok (sentinel category scenario urgency),
     set_log (cons (CallFallback category scenario urgency language)) w).
Proof.
  intros H. rewrite get_fallback_excuse_run. unfold try_except.
  rewrite (get_fallback_excuse_try_empty _ _ _ _ _ _ H). reflexivity.
Qed.

(** The selector always returns, it logs its call, and its score is
    between 5 and 10. *)
Lemma get_fallback_excuse_total
    (self : t) (category scenario urgency language : string) (w : World) :
  exists d w',
    get_fallback_excuse self category scenario urgency language w = (Ok d, w')
    /\ log w' = CallFallback category scenario urgency language :: log w
    /\ 5 <= believability_score d <= 10.
Proof.
  destruct (excuse_options self category urgency language) as [| x xs] eqn:E.
  - eexists _, _. split; [apply get_fallback_excuse_empty, E |].
    split; [reflexivity |]. cbn. split; lra.
  - destruct (get_fallback_excuse_selected self category scenario urgency
                language w) as (text & _ & Hrun); [rewrite E; discriminate |].
    eexists _, _. split; [exact Hrun |]. split; [reflexivity |].
    cbn [believability_score]. apply clamp_range.
Qed.

(** The selector leaves the store, the clock and the files alone. *)
Lemma get_fallback_excuse_frame
    (self : t) (category scenario urgency language : string) (w : World) :
  exists d w',
    get_fallback_excuse self category scenario urgency language w = (Ok d, w')
    /\ db w' = db w /\ now w' = now w /\ files w' = files w.
Proof.
  destruct (excuse_options self category urgency language) as [| x xs] eqn:E.
  - eexists _, _. split; [apply get_fallback_excuse_empty, E |].
    repeat split.
  - destruct (get_fallback_excuse_selected self category scenario urgency
                language w) as (text & _ & Hrun); [rewrite E; discriminate |].
    eexists _, _. split; [exact Hrun |]. repeat split.
Qed.

Lemma dict_get_degrade {V} (d : gmap string V) (key fallback : string) (dflt : V) :
  dict_get d key (dict_get d fallback dflt) = default dflt (d !! degrade d key fallback).
Proof.
  unfold dict_get, degrade.
  destruct (decide (is_Some (d !! key))) as [[v Hv] | Hnone].
  - rewrite Hv. reflexivity.
  - destruct (d !! key) as [v |] eqn:E; [destruct Hnone; eauto | reflexivity].
Qed.

Lemma excuse_options_degraded
    (self : t) (category urgency language : string) :
  excuse_options self category urgency language
  = degraded_options (excuses_db self) category urgency language.
Proof.
  unfold excuse_options, degraded_options.
  rewrite !dict_get_degrade. reflexivity.
Qed.

End FallbackRuns.

(** ** The fallback selector *)

(** C4, as stated, fails on a table with an empty candidate list: the
    list that en/work/high resolves to is empty, and the selector returns
    the sentinel sentence, which is not one of its members. *)
Lemma fallback_text_outside_empty_list :
  ExcuseGenerator.degraded_options
    (ExcuseGenerator.excuses_db empty_high) "work" "high" "en" = []
  /\ exists d w',
       ExcuseGenerator.get_fallback_excuse
         empty_high "work" "x" "high" "en" offline_world = (Ok d, w')
       /\ excuse d = "I have an unexpected situation that requires my attention."
       /\ excuse d ∉ ExcuseGenerator.degraded_options
                       (ExcuseGenerator.excuses_db empty_high)
                       "work" "high" "en".
Proof.
  split; [reflexivity |].
  eexists _, _. split; [apply get_fallback_excuse_empty; reflexivity |].
  split; [reflexivity |].
  change (ExcuseGenerator.degraded_options _ _ _ _) with (@nil string).
  apply not_elem_of_nil.
Qed.

(** C4, amended.  The selector resolves its candidate list by
    degradation (an absent language to 'en', an absent category to
    'work', an absent urgency to 'medium', then the hardcoded sentence);
    whenever that list is not empty the selector returns one of its
    members, and so [fallback('work', 'x', 'high', 'en')] returns a member
    of a non-empty en/work/high list. *)
Theorem fallback_text_from_degraded_list
    (self : ExcuseGenerator.t) (category scenario urgency language : string)
    (w : World) :
  ExcuseGenerator.excuse_options self category urgency language
  = ExcuseGenerator.degraded_options
      (ExcuseGenerator.excuses_db self) category urgency language
  /\ (ExcuseGenerator.degraded_options
        (ExcuseGenerator.excuses_db self) category urgency language <> [] ->
      exists d w',
        ExcuseGenerator.get_fallback_excuse
          self category scenario urgency language w = (Ok d, w')
        /\ excuse d ∈ ExcuseGenerator.degraded_options
                        (ExcuseGenerator.excuses_db self)
                        category urgency language)
  /\ (forall by_category by_urgency options,
        ExcuseGenerator.excuses_db self !! "en" = Some by_category ->
        by_category !! "work" = Some by_urgency ->
        by_urgency !! "high" = Some options ->
        options <> [] ->
        exists d w',
          ExcuseGenerator.get_fallback_excuse
            self "work" "x" "high" "en" w = (Ok d, w')
          /\ excuse d ∈ options).
Proof.
  split; [apply excuse_options_degraded |]. split.
  - intros Hne. rewrite <- excuse_options_degraded in *.
    destruct (get_fallback_excuse_selected self category scenario urgency
                language w Hne) as (text & Hin & Hrun).
    eexists _, _. split; [exact Hrun | exact Hin].
  - intros by_category by_urgency options Hen Hwork Hhigh Hne.
    assert (ExcuseGenerator.excuse_options self "work" "high" "en" = options)
      as Hopts.
    { unfold ExcuseGenerator.excuse_options, dict_get.
      rewrite Hen. simpl. rewrite Hwork. simpl. rewrite Hhigh. reflexivity. }
    destruct (get_fallback_excuse_selected self "work" "x" "high" "en" w)
      as (text & Hin & Hrun); [rewrite Hopts; exact Hne |].
    rewrite Hopts in Hin. eexists _, _. split; [exact Hrun | exact Hin].
Qed.

Lemma fallback_text_from_degraded_list_witness :
  (exists d w',
     ExcuseGenerator.get_fallback_excuse
       minimal "home" "x" "urgent" "fr" offline_world = (Ok d, w')
     /\ excuse d ∈ ExcuseGenerator.degraded_options
                     (ExcuseGenerator.excuses_db minimal) "home" "urgent" "fr")
  /\ (exists d w',
        ExcuseGenerator.get_fallback_excuse
          minimal "work" "x" "high" "en" offline_world = (Ok d, w')
        /\ excuse d ∈ ["I have an emergency that requires immediate attention."]).
Proof.
  split.
  - apply (fallback_text_from_degraded_list
             minimal "home" "x" "urgent" "fr" offline_world).
    vm_compute. discriminate.
  - eapply (fallback_text_from_degraded_list
              minimal "work" "x" "high" "en" offline_world);
      [reflexivity | reflexivity | reflexivity | discriminate].
Defined.

(** C7.  When the [try] block of the selector raises, whatever the
    exception, and so when the candidate list is empty, the selector
    returns the sentinel: the fixed sentence, the score 7.0, and the given
    category, scenario and urgency. *)
Theorem fallback_sentinel_on_failure
    (self : ExcuseGenerator.t) (category scenario urgency language : string)
    (w : World) :
  (forall (e : exn) (w' : World),
      ExcuseGenerator.get_fallback_excuse_try
        self category scenario urgency language
        (set_log (cons (CallFallback category scenario urgency language)) w)
      = (Raised e, w') ->
      ExcuseGenerator.get_fallback_excuse
        self category scenario urgency language w
      = (Ok {| excuse :=
                 "I have an unexpected situation that requires my attention.";
               believability_score := 7.0;
               category := category;
               scenario := scenario;
               urgency := urgency |}, w'))
  /\ (ExcuseGenerator.excuse_options self category urgency language = [] ->
      ExcuseGenerator.get_fallback_excuse
        self category scenario urgency language w
      = (Ok {| excuse :=
                 "I have an unexpected situation that requires my attention.";
               believability_score := 7.0;
               category := category;
               scenario := scenario;
               urgency := urgency |},
         set_log (cons (CallFallback category scenario urgency language)) w)).
Proof.
  split.
  - intros e w' Hraise. rewrite get_fallback_excuse_run.
    unfold try_except. rewrite Hraise. reflexivity.
  - apply get_fallback_excuse_empty.
Qed.

Lemma fallback_sentinel_on_failure_witness :
  ExcuseGenerator.get_fallback_excuse
    empty_high "work" "late again" "high" "en" offline_world
  = (Ok {| excuse :=
             "I have an unexpected situation that requires my attention.";
           believability_score := 7.0;
           category := "work";
           scenario := "late again";
           urgency := "high" |},
     set_log (cons (CallFallback "work" "late again" "high" "en"))
       offline_world).
Proof.
  apply (proj1 (fallback_sentinel_on_failure
                  empty_high "work" "late again" "high" "en" offline_world)
           IndexError).
  reflexivity.
Defined.

(** C5, as stated, fails when no candidate can be taken: with an empty
    en/work/high list the selector scores the sentinel 7.0, while the
    base score 8.5 of 'high' with any jitter in [-0.8, 1.2] gives at
    least 7.7. *)
Lemma fallback_score_of_sentinel_not_jittered :
  exists d w',
    ExcuseGenerator.get_fallback_excuse
      empty_high "work" "x" "high" "en" offline_world = (Ok d, w')
    /\ (believability_score d == 7.0)%Q
    /\ ExcuseGenerator.urgency_base "high" = 8.5%Q
    /\ ~ (exists jitter : Q,
            (-0.8 <= jitter <= 1.2)%Q
            /\ (believability_score d
                == ExcuseGenerator.clamp (ExcuseGenerator.urgency_base "high" + jitter))%Q).
Proof.
  eexists _, _. split; [apply get_fallback_excuse_empty; reflexivity |].
  split; [reflexivity |]. split; [reflexivity |].
  intros (jitter & [Hlo Hhi] & Heq).
  cbn [believability_score ExcuseGenerator.sentinel] in Heq.
  change (ExcuseGenerator.urgency_base "high") with 8.5%Q in Heq.
  pose proof (py_max_ge_l (8.5 + jitter) 5.0) as Hmax.
  unfold ExcuseGenerator.clamp in Heq.
  destruct (py_min_cases (py_max (8.5 + jitter) 5.0) 10.0)
    as [[E _] | [E _]]; rewrite E in Heq; lra.
Qed.

(** C5, amended.  Whenever the selector takes a candidate (the resolved
    list is not empty), its score is the base score of the urgency (6.5
    for low, 7.5 for medium, 8.5 for high, 7.5 for any other) plus the
    jitter it draws, which lies in [-0.8, 1.2], clamped to [5, 10]; and in
    every case the selector returns a score in [5, 10]. *)
Theorem fallback_score_clamped
    (self : ExcuseGenerator.t) (category scenario urgency language : string)
    (w : World) :
  (ExcuseGenerator.excuse_options self category urgency language <> [] ->
   exists d w',
     ExcuseGenerator.get_fallback_excuse
       self category scenario urgency language w = (Ok d, w')
     /\ (believability_score d
         == Qmin (Qmax (ExcuseGenerator.urgency_base urgency + ExcuseGenerator.jitter_of w) 5)
              10)%Q
     /\ (-0.8 <= ExcuseGenerator.jitter_of w <= 1.2)%Q)
  /\ (exists d w',
        ExcuseGenerator.get_fallback_excuse
          self category scenario urgency language w = (Ok d, w')
        /\ (5 <= believability_score d <= 10)%Q).
Proof.
  split.
  - intros Hne.
    destruct (get_fallback_excuse_selected self category scenario urgency
                language w Hne) as (text & _ & Hrun).
    eexists _, _. split; [exact Hrun |]. cbn [believability_score]. split.
    + rewrite base_score_urgency_base. apply clamp_Qmin_Qmax.
    + apply jitter_range.
  - destruct (get_fallback_excuse_total self category scenario urgency
                language w) as (d & w' & Hrun & _ & Hrange).
    exists d, w'. split; [exact Hrun | exact Hrange].
Qed.

Lemma fallback_score_clamped_witness :
  exists d w',
    ExcuseGenerator.get_fallback_excuse
      minimal "work" "x" "low" "en" offline_world = (Ok d, w')
    /\ (believability_score d
        == Qmin (Qmax (ExcuseGenerator.urgency_base "low"
                       + ExcuseGenerator.jitter_of offline_world) 5) 10)%Q
    /\ (-0.8 <= ExcuseGenerator.jitter_of offline_world <= 1.2)%Q.
Proof.
  apply (fallback_score_clamped minimal "work" "x" "low" "en" offline_world).
  vm_compute. discriminate.
Defined.

(** ** Urgencies outside low, medium and high *)

Lemma urgency_words_unknown (urgency : string) :
  urgency ∉ ["low"; "medium"; "high"] ->
  dict_get Scorer.urgency_words urgency [] = [].
Proof.
  intros H. unfold dict_get, Scorer.urgency_words.
  rewrite !not_elem_of_cons in H. destruct H as (Hl & Hm & Hh & _).
  rewrite !lookup_insert_ne, lookup_singleton_ne by congruence. reflexivity.
Qed.

(** C9.  For an urgency that is none of low, medium and high the scorer
    still returns: it finds no keyword set, adds no urgency bonus, and
    adds the same word-count and specificity bonuses as for any urgency;
    and the selector returns a score built on the base score 7.5. *)
Theorem unknown_urgency_defaults
    (text category urgency : string) :
  urgency ∉ ["low"; "medium"; "high"] ->
  Scorer.urgency_aligned text urgency = false
  /\ (Scorer.calculate_believability text category urgency
      == py_min (5 + Scorer.length_bonus (len (PyStr.split text))
                 + Scorer.specificity_bonus (Scorer.specificity text)) 10)%Q
  /\ dict_get ExcuseGenerator.base_score urgency 7.5%Q = 7.5%Q
  /\ (forall (self : ExcuseGenerator.t) (scenario language : string)
             (w : World),
        exists d w',
          ExcuseGenerator.get_fallback_excuse
            self category scenario urgency language w = (Ok d, w')
          /\ (ExcuseGenerator.excuse_options self category urgency language
              <> [] ->
              believability_score d
              = ExcuseGenerator.clamp (7.5 + ExcuseGenerator.jitter_of w)%Q)).
Proof.
  intros Hunknown.
  assert (Scorer.urgency_aligned text urgency = false) as Haligned.
  { unfold Scorer.urgency_aligned.
    rewrite (urgency_words_unknown _ Hunknown). reflexivity. }
  assert (dict_get ExcuseGenerator.base_score urgency 7.5%Q = 7.5%Q) as Hbase.
  { rewrite base_score_urgency_base. unfold ExcuseGenerator.urgency_base.
    rewrite !not_elem_of_cons in Hunknown.
    destruct Hunknown as (Hl & Hm & Hh & _).
    rewrite !decide_False by assumption. reflexivity. }
  split; [exact Haligned |]. split; [| split; [exact Hbase |]].
  - rewrite calculate_believability_sum, Haligned.
    apply py_min_compat; [| reflexivity].
    unfold Scorer.urgency_bonus. lra.
  - intros self scenario language w.
    destruct (ExcuseGenerator.excuse_options self category urgency language)
      as [| x xs] eqn:E.
    + eexists _, _. split; [apply get_fallback_excuse_empty, E |].
      intros Hne. destruct Hne. reflexivity.
    + destruct (get_fallback_excuse_selected self category scenario urgency
                  language w) as (t' & _ & Hrun); [rewrite E; discriminate |].
      eexists _, _. split; [exact Hrun |]. intros _.
      cbn [believability_score]. rewrite Hbase. reflexivity.
Qed.

Lemma unknown_urgency_defaults_witness :
  Scorer.urgency_aligned "this is urgent, a real emergency" "critical" = false
  /\ dict_get ExcuseGenerator.base_score "critical" 7.5%Q = 7.5%Q.
Proof.
  destruct (unknown_urgency_defaults
              "this is urgent, a real emergency" "work" "critical")
    as (Haligned & _ & Hbase & _).
  - rewrite !not_elem_of_cons. repeat split; try discriminate.
    apply not_elem_of_nil.
  - split; [exact Haligned | exact Hbase].
Defined.

(** ** The generator: credential, external call, single fallback *)

Section GeneratorRuns.

Import ExcuseGenerator.

Lemma init_prompt_en (loaded : table) :
  language_prompts (init loaded) !! "en"
  = Some "Generate a believable excuse in English".
Proof. reflexivity. Qed.

(** The [try] block of [generate_excuse]. *)
Lemma external_block_run
    (category scenario urgency : string) (request : ChatRequest) (w : World) :
  (response ← ChatCompletion_create request;
   excuse_text ← content_of response;
   mret {| excuse := excuse_text;
           believability_score :=
             calculate_believability excuse_text category urgency;
           category := category; scenario := scenario; urgency := urgency |}) w
  = match external_call w request with
    | inl e => (Raised e, set_log (cons (CallCompletion request)) w)
    | inr excuse_text =>
        (Ok {| excuse := excuse_text;
               believability_score :=
                 calculate_believability excuse_text category urgency;
               category := category; scenario := scenario;
               urgency := urgency |},
         set_log (cons (CallCompletion request)) w)
    end.
Proof.
  unfold external_call, ChatCompletion_create, content_of.
  unfold mbind, Py_bind, mret, Py_ret, gets, trace, modify, raise.
  change (completion (set_log _ w) request) with (completion w request).
  destruct (completion w request) as [e | response]; [reflexivity |].
  destruct (extract_content response) as [e | excuse_text]; reflexivity.
Qed.

Lemma generate_excuse_run
    (loaded : table) (category scenario urgency language : string) (w : World) :
  generate_excuse (init loaded) category scenario urgency language w
  = if decide (api_key w = "")
    then get_fallback_excuse (init loaded) category scenario urgency language w
    else
      match external_call w
              (request_for (init loaded) category scenario urgency language)
      with
      | inl e =>
          get_fallback_excuse (init loaded) category scenario urgency language
            (set_log
               (cons (CallCompletion
                        (request_for (init loaded)
                           category scenario urgency language))) w)
      | inr excuse_text =>
          (Ok {| excuse := excuse_text;
                 believability_score :=
                   calculate_believability excuse_text category urgency;
                 category := category; scenario := scenario;
                 urgency := urgency |},
           set_log
             (cons (CallCompletion
                      (request_for (init loaded)
                         category scenario urgency language))) w)
      end.
Proof.
  unfold generate_excuse. rewrite bind_run. cbn [gets].
  destruct (decide (api_key w = "")) as [Hkey | Hkey]; [reflexivity |].
  rewrite bind_run. unfold subscript. rewrite init_prompt_en.
  cbn [mret Py_ret]. unfold try_except at 1.
  unfold request_for, dict_get. rewrite init_prompt_en. simpl default.
  rewrite external_block_run.
  destruct (external_call w _) as [e | excuse_text]; reflexivity.
Qed.

End GeneratorRuns.

(** C3.  Without a credential [generate_excuse] is the fallback selector
    on the same arguments.  With a credential, when the external call
    fails, whatever the exception, the result is that of one run of the
    fallback selector: the service was called once, the selector once
    after it, and the caller gets a result, not the exception. *)
Theorem generate_excuse_single_fallback
    (loaded : ExcuseGenerator.table)
    (category scenario urgency language : string) (w : World) :
  (api_key w = "" ->
   ExcuseGenerator.generate_excuse
     (ExcuseGenerator.init loaded) category scenario urgency language w
   = ExcuseGenerator.get_fallback_excuse
       (ExcuseGenerator.init loaded) category scenario urgency language w)
  /\ (api_key w <> "" ->
      forall e : exn,
        ExcuseGenerator.external_call w
          (ExcuseGenerator.request_for
             (ExcuseGenerator.init loaded) category scenario urgency language)
        = inl e ->
        exists d w',
          ExcuseGenerator.generate_excuse
            (ExcuseGenerator.init loaded) category scenario urgency language w
          = (Ok d, w')
          /\ ExcuseGenerator.get_fallback_excuse
               (ExcuseGenerator.init loaded)
               category scenario urgency language
               (set_log
                  (cons (CallCompletion
                           (ExcuseGenerator.request_for
                              (ExcuseGenerator.init loaded)
                              category scenario urgency language))) w)
             = (Ok d, w')
          /\ log w'
             = CallFallback category scenario urgency language
               :: CallCompletion
                    (ExcuseGenerator.request_for
                       (ExcuseGenerator.init loaded)
                       category scenario urgency language)
               :: log w).
Proof.
  split.
  - intros Hkey. rewrite generate_excuse_run, decide_True by exact Hkey.
    reflexivity.
  - intros Hkey e Hfail.
    rewrite generate_excuse_run, decide_False, Hfail by exact Hkey.
    destruct (get_fallback_excuse_total (ExcuseGenerator.init loaded)
                category scenario urgency language
                (set_log
                   (cons (CallCompletion
                            (ExcuseGenerator.request_for
                               (ExcuseGenerator.init loaded)
                               category scenario urgency language))) w))
      as (d & w' & Hrun & Hlog & _).
    exists d, w'. split; [exact Hrun |]. split; [exact Hrun | exact Hlog].
Qed.

Lemma generate_excuse_single_fallback_witness :
  ExcuseGenerator.generate_excuse minimal "work" "x" "high" "en" offline_world
  = ExcuseGenerator.get_fallback_excuse
      minimal "work" "x" "high" "en" offline_world
  /\ exists d w',
       ExcuseGenerator.generate_excuse
         minimal "work" "x" "high" "en" refused_world = (Ok d, w')
       /\ ExcuseGenerator.get_fallback_excuse minimal "work" "x" "high" "en"
            (set_log
               (cons (CallCompletion
                        (ExcuseGenerator.request_for
                           minimal "work" "x" "high" "en"))) refused_world)
          = (Ok d, w')
       /\ log w'
          = CallFallback "work" "x" "high" "en"
            :: CallCompletion
                 (ExcuseGenerator.request_for minimal "work" "x" "high" "en")
            :: log refused_world.
Proof.
  split.
  - apply (generate_excuse_single_fallback
             ExcuseGenerator.minimal_fallbacks "work" "x" "high" "en"
             offline_world).
    reflexivity.
  - apply (proj2 (generate_excuse_single_fallback
                    ExcuseGenerator.minimal_fallbacks "work" "x" "high" "en"
                    refused_world)) with (e := ServiceError "quota exceeded").
    + discriminate.
    + reflexivity.
Defined.

(** ** The routes and the store *)

Section StoreFacts.

Lemma foldr_max_upper (k : Z) (ks : list Z) (x : Z) :
  x ∈ k :: ks -> (x <= foldr Z.max k ks)%Z.
Proof.
  induction ks as [| y ks IH]; cbn [foldr]; intros Hin.
  - apply elem_of_cons in Hin as [-> | Hin]; [lia |].
    apply elem_of_nil in Hin. destruct Hin.
  - apply elem_of_cons in Hin as [-> | Hin].
    + assert (k <= foldr Z.max k ks)%Z by (apply IH, elem_of_cons; auto). lia.
    + apply elem_of_cons in Hin as [-> | Hin]; [lia |].
      assert (x <= foldr Z.max k ks)%Z by (apply IH, elem_of_cons; auto). lia.
Qed.

(** The key of a new row is the key of no row. *)
Lemma fresh_id_fresh {A} (m : gmap Z A) : m !! fresh_id m = None.
Proof.
  destruct (m !! fresh_id m) as [x |] eqn:E; [| reflexivity].
  exfalso. apply elem_of_map_to_list in E.
  assert (fresh_id m ∈ (map_to_list m).*1) as Hin.
  { apply list_elem_of_fmap. exists (fresh_id m, x). split; [reflexivity | exact E]. }
  unfold fresh_id, max_key in Hin |- *.
  destruct ((map_to_list m).*1) as [| k ks] eqn:Eks.
  - apply elem_of_nil in Hin. exact Hin.
  - apply foldr_max_upper in Hin. lia.
Qed.

Lemma user_conflict_false (u : User.t) (m : gmap Z User.t) :
  user_conflict u m = false -> m !! User.id u = None.
Proof.
  unfold user_conflict. intros H. apply orb_false_iff in H as [H _].
  apply bool_decide_eq_false in H.
  destruct (m !! User.id u); [destruct H; eauto | reflexivity].
Qed.

(** The generator returns, and leaves the store and the clock alone. *)
Lemma generator_frame
    (loaded : ExcuseGenerator.table)
    (category scenario urgency language : string) (w : World) :
  exists d w',
    ExcuseGenerator.generate_excuse
      (ExcuseGenerator.init loaded) category scenario urgency language w
    = (Ok d, w')
    /\ db w' = db w /\ now w' = now w.
Proof.
  rewrite generate_excuse_run.
  destruct (decide (api_key w = "")) as [Hkey | Hkey].
  - destruct (get_fallback_excuse_frame (ExcuseGenerator.init loaded)
                category scenario urgency language w)
      as (d & w' & Hrun & Hdb & Hnow & _).
    exists d, w'. auto.
  - destruct (ExcuseGenerator.external_call w _) as [e | excuse_text].
    + match goal with
      | |- context [ExcuseGenerator.get_fallback_excuse _ _ _ _ _ ?w1] =>
          destruct (get_fallback_excuse_frame (ExcuseGenerator.init loaded)
                      category scenario urgency language w1)
            as (d & w' & Hrun & Hdb & Hnow & _)
      end.
      exists d, w'. auto.
    + eexists _, _. split; [reflexivity |]. split; reflexivity.
Qed.

End StoreFacts.

(** C8.  A request to the proof route whose [excuse_id] is the key of no
    [Excuse] leaves the world as it was: no [ProofDocument] row, no
    change to an [Excuse].  It gets the failure response 'Excuse not
    found' when the [excuse_id] is absent or an integer that the store
    can hold as a key; for any other integer the lookup raises
    [OverflowError] out of the route and there is no response. *)
Theorem generate_proof_unknown_excuse (data : ProofRequest.t) (w : World) :
  (forall k : Z,
      ProofRequest.excuse_id data = Some k -> excuses (db w) !! k = None) ->
  generate_proof data w
  = (if bindable (ProofRequest.excuse_id data)
     then Ok {[ "success" := JBool false; "error" := JStr "Excuse not found" ]}
     else Raised OverflowError,
     w).
Proof.
  intros Hnone. unfold generate_proof. rewrite bind_run.
  unfold Excuse_query_get, bindable.
  destruct (ProofRequest.excuse_id data) as [k |] eqn:Ek; [| reflexivity].
  rewrite bind_run. cbn [gets]. rewrite (Hnone k eq_refl).
  unfold no_row. destruct (int64 k); reflexivity.
Qed.

Lemma generate_proof_unknown_excuse_witness :
  generate_proof
    {| ProofRequest.excuse_id := Some 7%Z;
       ProofRequest.proof_type := Some "receipt" |} demo_world
  = (Ok {[ "success" := JBool false; "error" := JStr "Excuse not found" ]},
     demo_world)
  /\ generate_proof
       {| ProofRequest.excuse_id := Some (2 ^ 63)%Z;
          ProofRequest.proof_type := Some "receipt" |} demo_world
     = (Raised OverflowError, demo_world).
Proof.
  split.
  - apply (generate_proof_unknown_excuse
             {| ProofRequest.excuse_id := Some 7%Z;
                ProofRequest.proof_type := Some "receipt" |} demo_world).
    intros k Hk. reflexivity.
  - apply (generate_proof_unknown_excuse
             {| ProofRequest.excuse_id := Some (2 ^ 63)%Z;
                ProofRequest.proof_type := Some "receipt" |} demo_world).
    intros k Hk. reflexivity.
Defined.

(** C10.  The second of two requests on behalf of user 2, who has no
    row: the first creates the user with key 1 and stores an excuse of
    user 2; at the second user 2 still has no row, the route inserts
    [User(id=1)] again, the commit violates the primary key, the route
    raises and no [Excuse] is stored. *)
Theorem generate_excuse_twice_for_absent_user :
  exists response w1 w2,
    generate_excuse minimal (request_of_user 2) offline_world
    = (Ok response, w1)
    /\ users (db w1) !! 1%Z = Some (demo_user 0)
    /\ users (db w1) !! requested_user (request_of_user 2) = None
    /\ Excuse.user_id <$> excuses (db w1) !! 1%Z = Some 2%Z
    /\ generate_excuse minimal (request_of_user 2) w1
       = (Raised IntegrityError, w2)
    /\ excuses (db w2) = excuses (db w1).
Proof.
  eexists _, _, _. split; [reflexivity |].
  split; [reflexivity |]. split; [reflexivity |]. split; [reflexivity |].
  split; reflexivity.
Qed.

(** X7.  What the route does while the demo user can be inserted.  On a
    request whose [user_id] has no [User] row and is an integer that the
    store can hold as a key, when no row holds the key 1, the name
    'demo_user' or the demo address, and the store does not enforce
    foreign keys: the one user created has key 1 and name 'demo_user'
    whatever the requested [user_id], the new [Excuse] row is stored
    under a fresh key with the requested [user_id], and for a requested
    [user_id] other than 1 that row refers to a user that still has no
    row. *)
Lemma generate_excuse_creates_demo_user
    (loaded : ExcuseGenerator.table) (data : ExcuseRequest.t) (w : World) :
  users (db w) !! requested_user data = None ->
  int64 (requested_user data) = true ->
  user_conflict (demo_user (now w)) (users (db w)) = false ->
  foreign_keys (db w) = false ->
  exists response w' row,
    generate_excuse (ExcuseGenerator.init loaded) data w = (Ok response, w')
    /\ users (db w') = <[1%Z := demo_user (now w)]> (users (db w))
    /\ User.id (demo_user (now w)) = 1%Z
    /\ User.username (demo_user (now w)) = "demo_user"
    /\ excuses (db w) !! Excuse.id row = None
    /\ excuses (db w') = <[Excuse.id row := row]> (excuses (db w))
    /\ Excuse.user_id row = requested_user data
    /\ response !! "excuse_id" = Some (JInt (Excuse.id row))
    /\ (requested_user data <> 1%Z ->
        users (db w') !! Excuse.user_id row = None).
Proof.
  intros Hnone Hrange Hconf Hfk.
  destruct (generator_frame loaded
              (default "work" (ExcuseRequest.category data))
              (default "general" (ExcuseRequest.scenario data))
              (default "medium" (ExcuseRequest.urgency data))
              (default "en" (ExcuseRequest.language data)) w)
    as (d & w1 & Hrun & Hdb & Hnow).
  unfold generate_excuse. rewrite bind_run, Hrun.
  unfold User_query_get, no_row, add_user, add_excuse.
  unfold mbind, Py_bind, mret, Py_ret, gets, modify, raise.
  repeat (progress (cbn beta iota delta [db set_db set_users foreign_keys
                      users excuses proof_documents andb];
                    rewrite ?Hdb, ?Hnow, ?Hnone, ?Hrange, ?Hconf, ?Hfk));
    unfold new_excuse at 1; cbn [Excuse.user_id].
  eexists _, _, (new_excuse _ _ _ _ _ d (now w) (fresh_id (excuses (db w)))).
  cbn [now set_db]. rewrite ?Hnow. split; [reflexivity |].
  cbn [db set_db set_users set_excuses users excuses Excuse.id Excuse.user_id
       new_excuse].
  rewrite ?Hdb.
  split; [reflexivity |]. split; [reflexivity |]. split; [reflexivity |].
  split; [| split; [reflexivity | split; [reflexivity | split; [reflexivity |]]]].
  - apply fresh_id_fresh.
  - intros Hne. cbn [Excuse.user_id User.id demo_user].
    rewrite lookup_insert_ne by congruence. exact Hnone.
Qed.

Example generate_excuse_creates_demo_user_first_request :
  exists response w' row,
    generate_excuse minimal (request_of_user 2) offline_world
    = (Ok response, w')
    /\ users (db w') = {[ 1%Z := demo_user 0 ]}
    /\ excuses (db w') = {[ Excuse.id row := row ]}
    /\ Excuse.user_id row = 2%Z
    /\ users (db w') !! Excuse.user_id row = None.
Proof.
  destruct (generate_excuse_creates_demo_user
              ExcuseGenerator.minimal_fallbacks (request_of_user 2)
              offline_world)
    as (response & w' & row & Hrun & Husers & _ & _ & _ & Hexcuses & Huser
        & _ & Hdangling);
    [reflexivity | reflexivity | reflexivity | reflexivity |].
  exists response, w', row. split; [exact Hrun |].
  split; [exact Husers |]. split; [exact Hexcuses |]. split; [exact Huser |].
  apply Hdangling. rewrite <- Huser. rewrite Huser. discriminate.
Defined.

(** ** Sample runs *)

Example split_words :
  PyStr.split "  I have   an emergency " = ["I"; "have"; "an"; "emergency"].
Proof. reflexivity. Qed.

Example strip_spaces : PyStr.strip "  not today  " = "not today".
Proof. reflexivity. Qed.

Example lower_mixed : PyStr.lower "My CAR broke" = "my car broke".
Proof. reflexivity. Qed.

(** The example of the specification: one vocabulary word and one
    keyword of 'high' in eight words. *)
Example score_of_emergency :
  (Scorer.calculate_believability
     "I have an emergency that requires immediate attention." "work" "high"
   == 7.0)%Q.
Proof. vm_compute. reflexivity. Qed.

(** Fewer than five words and nothing else: the lowest score there is. *)
Example score_of_no :
  (Scorer.calculate_believability "no" "work" "high" == 4.0)%Q.
Proof. vm_compute. reflexivity. Qed.

(** The generator gives 0, so the jitter is -0.8. *)
Example fallback_high :
  exists d w',
    ExcuseGenerator.get_fallback_excuse minimal "work" "x" "high" "en"
      offline_world = (Ok d, w')
    /\ excuse d = "I have an emergency that requires immediate attention."
    /\ (believability_score d == 7.7)%Q
    /\ log w' = [CallFallback "work" "x" "high" "en"].
Proof.
  eexists _, _. split; [reflexivity |]. split; [reflexivity |].
  split; [vm_compute |]; reflexivity.
Qed.

(** A proof for a stored excuse: the row of the document is added and
    the excuse is marked. *)
Example generate_proof_after_excuse :
  exists response w1 w2,
    generate_excuse minimal (request_of_user 1) offline_world
    = (Ok response, w1)
    /\ generate_proof
         {| ProofRequest.excuse_id := Some 1%Z;
            ProofRequest.proof_type := None |} w1
       = (Ok {[ "success" := JBool true;
                "proof_path" :=
                  JStr "static/proofs/email_1_20240101_000000.png";
                "download_url" :=
                  JStr "/static/proofs/email_1_20240101_000000.png" ]}, w2)
    /\ ProofDocument.file_path <$> proof_documents (db w2) !! 1%Z
       = Some "static/proofs/email_1_20240101_000000.png"
    /\ Excuse.proof_generated <$> excuses (db w1) !! 1%Z = Some false
    /\ Excuse.proof_generated <$> excuses (db w2) !! 1%Z = Some true
    /\ files w2 = {[ "static/proofs/email_1_20240101_000000.png" ]}.
Proof.
  eexists _, _, _. split; [reflexivity |]. split; [reflexivity |].
  split; [reflexivity |]. split; [reflexivity |]. split; [reflexivity |].
  vm_compute. reflexivity.
Qed.

(** * Further properties of the code *)

(** ** The scorer: the cap, and the case of the text *)

(** X1.  The score is exactly 5.0 plus its three bonuses: they add up to
    at most 1.5 + 2.0 + 1.5, so the cap at 10.0 never cuts anything, and
    the score is never below 4.0. *)
Theorem score_is_sum_of_bonuses (text category urgency : string) :
  (Scorer.calculate_believability text category urgency
   == 5 + Scorer.length_bonus (len (PyStr.split text))
      + Scorer.specificity_bonus (Scorer.specificity text)
      + Scorer.urgency_bonus (Scorer.urgency_aligned text urgency))%Q
  /\ (4 <= Scorer.calculate_believability text category urgency)%Q.
Proof.
  pose proof (length_bonus_range (len (PyStr.split text))) as Hl.
  pose proof (specificity_bonus_range _ (proj1 (specificity_range text))) as Hs.
  pose proof (urgency_bonus_range (Scorer.urgency_aligned text urgency)) as Hu.
  rewrite calculate_believability_sum.
  destruct (py_min_cases
              (5 + Scorer.length_bonus (len (PyStr.split text))
               + Scorer.specificity_bonus (Scorer.specificity text)
               + Scorer.urgency_bonus (Scorer.urgency_aligned text urgency))
              10) as [[-> _] | [-> Hlt]]; split; lra.
Qed.

Lemma isspace_lower_char (c : Ascii.ascii) :
  PyStr.isspace (PyStr.lower_char c) = PyStr.isspace c.
Proof. destruct c as [[] [] [] [] [] [] [] []]; reflexivity. Qed.

Lemma word_starts_lower (s : string) (after_space : bool) :
  Reference.word_starts after_space (PyStr.lower s)
  = Reference.word_starts after_space s.
Proof.
  revert after_space. induction s as [| c s IH]; intros after_space;
    [reflexivity |].
  cbn [PyStr.lower Reference.word_starts].
  rewrite isspace_lower_char, IH. reflexivity.
Qed.

Lemma split_length_lower (text : string) :
  length (PyStr.split (PyStr.lower text)) = length (PyStr.split text).
Proof.
  rewrite !split_word_count. unfold Reference.word_count.
  apply word_starts_lower.
Qed.

(** X2.  The score does not see the case of the letters: two texts with
    the same lowering get the same score. *)
Theorem score_ignores_case (text text' category category' urgency : string) :
  PyStr.lower text = PyStr.lower text' ->
  Scorer.calculate_believability text category urgency
  = Scorer.calculate_believability text' category' urgency.
Proof.
  intros Hlower.
  assert (len (PyStr.split text) = len (PyStr.split text')) as Hlen.
  { unfold len. f_equal.
    rewrite <- (split_length_lower text), <- (split_length_lower text').
    rewrite Hlower. reflexivity. }
  unfold Scorer.calculate_believability, Scorer.specificity,
    Scorer.urgency_aligned.
  rewrite Hlen, Hlower. reflexivity.
Qed.

Lemma score_ignores_case_witness :
  Scorer.calculate_believability "My CAR broke down, it is URGENT" "work" "high"
  = Scorer.calculate_believability "my car broke down, it is urgent" "family"
      "high".
Proof.
  apply (score_ignores_case
           "My CAR broke down, it is URGENT" "my car broke down, it is urgent"
           "work" "family" "high").
  reflexivity.
Defined.

(** ** The generator: the answer of the service, and what always holds *)

(** X3.  With a credential and a readable answer of the service, the
    excuse is the content of the first choice without the blanks around
    it, its score is the scorer's, the service was called once and the
    fallback selector not at all; nothing else of the world changes. *)
Theorem generate_excuse_from_service
    (loaded : ExcuseGenerator.table)
    (category scenario urgency language : string) (w : World)
    (response : Response) (choice : Choice) (others : list Choice)
    (raw : string) :
  api_key w <> "" ->
  completion w
    (ExcuseGenerator.request_for
       (ExcuseGenerator.init loaded) category scenario urgency language)
  = inr response ->
  choices response = choice :: others ->
  message choice !! "content" = Some (PyStr raw) ->
  ExcuseGenerator.generate_excuse
    (ExcuseGenerator.init loaded) category scenario urgency language w
  = (Ok {| excuse := PyStr.strip raw;
           believability_score :=
             Scorer.calculate_believability (PyStr.strip raw) category urgency;
           category := category;
           scenario := scenario;
           urgency := urgency |},
     set_log
       (cons (CallCompletion
                (ExcuseGenerator.request_for
                   (ExcuseGenerator.init loaded)
                   category scenario urgency language))) w).
Proof.
  intros Hkey Hanswer Hchoices Hcontent.
  rewrite generate_excuse_run, decide_False by exact Hkey.
  unfold ExcuseGenerator.external_call. rewrite Hanswer.
  unfold ExcuseGenerator.extract_content. rewrite Hchoices, Hcontent.
  reflexivity.
Qed.

Lemma generate_excuse_from_service_witness :
  exists w',
    ExcuseGenerator.generate_excuse minimal "work" "x" "high" "en"
      answering_world
    = (Ok {| excuse := "My car broke down near the hospital.";
             believability_score :=
               Scorer.calculate_believability
                 "My car broke down near the hospital." "work" "high";
             category := "work"; scenario := "x"; urgency := "high" |}, w')
    /\ log w'
       = [CallCompletion
            (ExcuseGenerator.request_for minimal "work" "x" "high" "en")].
Proof.
  eexists. split.
  - pose proof (fun response choice others =>
                  generate_excuse_from_service
                    ExcuseGenerator.minimal_fallbacks "work" "x" "high" "en"
                    answering_world response choice others
                    "  My car broke down near the hospital.  ") as Hrun.
    eapply Hrun; [discriminate | reflexivity | reflexivity | reflexivity].
  - reflexivity.
Defined.

Lemma calculate_believability_floor (text category urgency : string) :
  (4 <= Scorer.calculate_believability text category urgency <= 10)%Q.
Proof.
  pose proof (length_bonus_range (len (PyStr.split text))) as Hl.
  pose proof (specificity_bonus_range _ (proj1 (specificity_range text))) as Hs.
  pose proof (urgency_bonus_range (Scorer.urgency_aligned text urgency)) as Hu.
  rewrite calculate_believability_sum. split.
  - apply py_min_glb; lra.
  - apply py_min_le_r.
Qed.

(** What a run of the fallback selector leaves: a result that echoes
    its arguments, a score in [5, 10], the store, clock and files as they
    were. *)
Lemma get_fallback_excuse_outcome
    (self : ExcuseGenerator.t) (category scenario urgency language : string)
    (w : World) :
  exists d w',
    ExcuseGenerator.get_fallback_excuse
      self category scenario urgency language w = (Ok d, w')
    /\ (5 <= believability_score d <= 10)%Q
    /\ category_of d = category /\ scenario_of d = scenario
    /\ urgency_of d = urgency
    /\ db w' = db w /\ now w' = now w /\ files w' = files w
    /\ stamp w' = stamp w.
Proof.
  destruct (ExcuseGenerator.excuse_options self category urgency language)
    as [| x xs] eqn:E.
  - eexists _, _. split; [apply get_fallback_excuse_empty, E |].
    split; [cbn; split; lra |]. repeat split.
  - destruct (get_fallback_excuse_selected self category scenario urgency
                language w) as (text & _ & Hrun); [rewrite E; discriminate |].
    eexists _, _. split; [exact Hrun |].
    split; [apply clamp_range |]. repeat split.
Qed.

(** The same for the generator, with the floor of the scorer. *)
Lemma generator_outcome
    (loaded : ExcuseGenerator.table)
    (category scenario urgency language : string) (w : World) :
  exists d w',
    ExcuseGenerator.generate_excuse
      (ExcuseGenerator.init loaded) category scenario urgency language w
    = (Ok d, w')
    /\ (4 <= believability_score d <= 10)%Q
    /\ category_of d = category /\ scenario_of d = scenario
    /\ urgency_of d = urgency
    /\ db w' = db w /\ now w' = now w /\ files w' = files w
    /\ stamp w' = stamp w.
Proof.
  rewrite generate_excuse_run.
  destruct (decide (api_key w = "")) as [Hkey | Hkey].
  - destruct (get_fallback_excuse_outcome (ExcuseGenerator.init loaded)
                category scenario urgency language w)
      as (d & w' & Hrun & Hscore & H).
    exists d, w'. split; [exact Hrun |]. split; [lra | exact H].
  - destruct (ExcuseGenerator.external_call w _) as [e | excuse_text].
    + match goal with
      | |- context [ExcuseGenerator.get_fallback_excuse _ _ _ _ _ ?w1] =>
          destruct (get_fallback_excuse_outcome (ExcuseGenerator.init loaded)
                      category scenario urgency language w1)
            as (d & w' & Hrun & Hscore & H)
      end.
      exists d, w'. split; [exact Hrun |]. split; [lra | exact H].
    + eexists _, _. split; [reflexivity |].
      split; [apply calculate_believability_floor |]. repeat split.
Qed.

(** X4.  Whatever the credential, the service and the table, the
    generator returns a result and raises nothing; the result carries
    the given category, scenario and urgency and a score between 4 and
    10; the store, the clock and the files are untouched. *)
Theorem generate_excuse_always_answers
    (loaded : ExcuseGenerator.table)
    (category scenario urgency language : string) (w : World) :
  exists d w',
    ExcuseGenerator.generate_excuse
      (ExcuseGenerator.init loaded) category scenario urgency language w
    = (Ok d, w')
    /\ (4 <= believability_score d <= 10)%Q
    /\ category_of d = category /\ scenario_of d = scenario
    /\ urgency_of d = urgency
    /\ db w' = db w /\ files w' = files w.
Proof.
  destruct (generator_outcome loaded category scenario urgency language w)
    as (d & w' & Hrun & Hscore & Hc & Hs & Hu & Hdb & _ & Hfiles & _).
  exists d, w'. repeat split; try assumption; apply Hscore.
Qed.

(** ** The selector on the built-in tables *)

Lemma dict_get_singleton_degrade {V} (k key : string) (v dflt : V) :
  dict_get ({[ k := v ]} : gmap string V) key
    (dict_get ({[ k := v ]} : gmap string V) k dflt) = v.
Proof.
  unfold dict_get. rewrite lookup_singleton_eq. cbn [default from_option].
  destruct (decide (key = k)) as [-> | Hne].
  - rewrite lookup_singleton_eq. reflexivity.
  - rewrite lookup_singleton_ne by congruence. reflexivity.
Qed.

Lemma excuse_options_minimal (category urgency language : string) :
  ExcuseGenerator.excuse_options (new_generator FileNotFound)
    category urgency language
  = [ if decide (urgency = "high")
      then "I have an emergency that requires immediate attention."
      else if decide (urgency = "low")
           then "I have some personal matters to attend to."
           else "I'm not feeling well and need to rest today." ].
Proof.
  unfold ExcuseGenerator.excuse_options, new_generator, ExcuseGenerator.init,
    ExcuseGenerator.minimal_fallbacks.
  cbn [ExcuseGenerator.excuses_db].
  rewrite !dict_get_singleton_degrade. unfold dict_get.
  destruct (decide (urgency = "high")) as [-> | Hh]; [reflexivity |].
  destruct (decide (urgency = "low")) as [-> | Hl]; [reflexivity |].
  destruct (decide (urgency = "medium")) as [-> | Hm]; [reflexivity |].
  assert (forall a b c : list string,
            ({[ "medium" := a; "high" := b; "low" := c ]}
               : gmap string (list string)) !! urgency = None) as ->.
  { intros a b c.
    rewrite !lookup_insert_ne, lookup_singleton_ne by congruence.
    reflexivity. }
  reflexivity.
Qed.

Lemma excuse_options_empty_table (category urgency language : string) :
  ExcuseGenerator.excuse_options (new_generator LoadFailed)
    category urgency language
  = ["I need to handle something important today."].
Proof. reflexivity. Qed.

(** X5.  Without [excuses.json] the selector never falls to its sentinel.
    On the minimal table the sentence depends on the urgency alone,
    whatever the category and the language: the one of 'high' or of
    'low', and the one of 'medium' for every other urgency.  On the empty
    table of a failed load it is the hardcoded sentence for every
    request. *)
Theorem fallback_on_built_in_tables
    (category scenario urgency language : string) (w : World) :
  (exists d w',
      ExcuseGenerator.get_fallback_excuse (new_generator FileNotFound)
        category scenario urgency language w = (Ok d, w')
      /\ excuse d
         = if decide (urgency = "high")
           then "I have an emergency that requires immediate attention."
           else if decide (urgency = "low")
                then "I have some personal matters to attend to."
                else "I'm not feeling well and need to rest today.")
  /\ (exists d w',
        ExcuseGenerator.get_fallback_excuse (new_generator LoadFailed)
          category scenario urgency language w = (Ok d, w')
        /\ excuse d = "I need to handle something important today.").
Proof.
  split.
  - destruct (get_fallback_excuse_selected (new_generator FileNotFound)
                category scenario urgency language w)
      as (text & Hin & Hrun).
    { rewrite excuse_options_minimal. discriminate. }
    rewrite excuse_options_minimal in Hin.
    apply list_elem_of_singleton in Hin. subst text.
    eexists _, _. split; [exact Hrun | reflexivity].
  - destruct (get_fallback_excuse_selected (new_generator LoadFailed)
                category scenario urgency language w)
      as (text & Hin & Hrun).
    { rewrite excuse_options_empty_table. discriminate. }
    rewrite excuse_options_empty_table in Hin.
    apply list_elem_of_singleton in Hin. subst text.
    eexists _, _. split; [exact Hrun | reflexivity].
Qed.

(** ** The route that stores excuses *)

Lemma add_user_run (u : User.t) (w : World) :
  add_user u w
  = if user_conflict u (users (db w)) then (Raised IntegrityError, w)
    else (Ok tt, set_db (set_users <[User.id u := u]>) w).
Proof.
  unfold add_user. rewrite bind_run. cbn [gets].
  destruct (user_conflict u (users (db w))); reflexivity.
Qed.

Lemma add_excuse_run (row : Z -> Excuse.t) (w : World) :
  add_excuse row w
  = if foreign_keys (db w)
       && negb (bool_decide
                  (is_Some (users (db w)
                            !! Excuse.user_id
                                 (row (fresh_id (excuses (db w)))))))
    then (Raised IntegrityError, w)
    else (Ok (fresh_id (excuses (db w))),
          set_db (set_excuses
                    <[fresh_id (excuses (db w))
                      := row (fresh_id (excuses (db w)))]>) w).
Proof.
  unfold add_excuse. rewrite bind_run. cbn [gets].
  destruct (foreign_keys (db w) && _); reflexivity.
Qed.

(** The route, once the generator has answered: the user step, then the
    insert of the excuse. *)
Lemma generate_excuse_route_run
    (excuse_generator : ExcuseGenerator.t) (data : ExcuseRequest.t)
    (w w1 : World) (d : ExcuseData) :
  ExcuseGenerator.generate_excuse excuse_generator
    (default "work" (ExcuseRequest.category data))
    (default "general" (ExcuseRequest.scenario data))
    (default "medium" (ExcuseRequest.urgency data))
    (default "en" (ExcuseRequest.language data)) w = (Ok d, w1) ->
  generate_excuse excuse_generator data w
  = match
      match users (db w1) !! requested_user data with
      | Some _ => (Ok tt, w1)
      | None =>
          if int64 (requested_user data)
          then add_user (demo_user (now w1)) w1
          else (Raised OverflowError, w1)
      end
    with
    | (Raised e, w2) => (Raised e, w2)
    | (Ok _, w2) =>
        match
          add_excuse
            (new_excuse (requested_user data)
               (default "work" (ExcuseRequest.category data))
               (default "general" (ExcuseRequest.scenario data))
               (default "medium" (ExcuseRequest.urgency data))
               (default "en" (ExcuseRequest.language data)) d (now w2)) w2
        with
        | (Raised e, w3) => (Raised e, w3)
        | (Ok excuse_id, w3) =>
            (Ok {[ "success" := JBool true;
                   "excuse_id" := JInt excuse_id;
                   "excuse" := JStr (excuse d);
                   "believability_score" := JFloat (believability_score d);
                   "category" :=
                     JStr (default "work" (ExcuseRequest.category data));
                   "urgency" :=
                     JStr (default "medium" (ExcuseRequest.urgency data)) ]},
             w3)
        end
    end.
Proof.
  intros Hrun. unfold generate_excuse. rewrite bind_run, Hrun.
  rewrite bind_run. unfold User_query_get. rewrite bind_run. cbn [gets].
  destruct (users (db w1) !! requested_user data) as [u |].
  - repeat (first [rewrite bind_run | progress cbn [mret Py_ret gets]]).
    destruct (add_excuse _ w1) as [[excuse_id | e] w3]; reflexivity.
  - unfold no_row. destruct (int64 (requested_user data)); [| reflexivity].
    repeat (first [rewrite bind_run | progress cbn [mret Py_ret gets]]).
    destruct (add_user _ w1) as [[[] | e] w2]; [| reflexivity].
    repeat (first [rewrite bind_run | progress cbn [mret Py_ret gets]]).
    destruct (add_excuse _ w2) as [[excuse_id | e] w3]; reflexivity.
Qed.

(** X6.  For a request on behalf of a user who has a row, the route
    answers and never fails, whether or not the store enforces foreign
    keys: exactly one [Excuse] row is stored, under a key that no row
    had, with the fields of the request and the generator's text and
    score (between 4 and 10); the response gives that key, text and
    score; every earlier excuse, every user and every proof document is
    kept as it was. *)
Theorem generate_excuse_for_known_user
    (loaded : ExcuseGenerator.table) (data : ExcuseRequest.t) (w : World)
    (user : User.t) :
  users (db w) !! requested_user data = Some user ->
  exists d w',
    generate_excuse (ExcuseGenerator.init loaded) data w
    = (Ok {[ "success" := JBool true;
             "excuse_id" := JInt (fresh_id (excuses (db w)));
             "excuse" := JStr (excuse d);
             "believability_score" := JFloat (believability_score d);
             "category" :=
               JStr (default "work" (ExcuseRequest.category data));
             "urgency" :=
               JStr (default "medium" (ExcuseRequest.urgency data)) ]}, w')
    /\ excuses (db w) !! fresh_id (excuses (db w)) = None
    /\ excuses (db w')
       = <[fresh_id (excuses (db w))
           := new_excuse (requested_user data)
                (default "work" (ExcuseRequest.category data))
                (default "general" (ExcuseRequest.scenario data))
                (default "medium" (ExcuseRequest.urgency data))
                (default "en" (ExcuseRequest.language data)) d (now w)
                (fresh_id (excuses (db w)))]> (excuses (db w))
    /\ (forall k e,
          excuses (db w) !! k = Some e -> excuses (db w') !! k = Some e)
    /\ users (db w') = users (db w)
    /\ proof_documents (db w') = proof_documents (db w)
    /\ (4 <= believability_score d <= 10)%Q.
Proof.
  intros Huser.
  destruct (generator_outcome loaded
              (default "work" (ExcuseRequest.category data))
              (default "general" (ExcuseRequest.scenario data))
              (default "medium" (ExcuseRequest.urgency data))
              (default "en" (ExcuseRequest.language data)) w)
    as (d & w1 & Hrun & Hscore & _ & _ & _ & Hdb & Hnow & _).
  exists d. rewrite (generate_excuse_route_run _ _ _ _ _ Hrun).
  rewrite Hdb, Huser, add_excuse_run, Hdb, Hnow.
  cbn [Excuse.user_id new_excuse]. rewrite Huser.
  rewrite bool_decide_eq_true_2 by eauto. rewrite andb_false_r.
  eexists. split; [reflexivity |].
  cbn [db set_db set_excuses excuses users proof_documents]. rewrite Hdb.
  split; [apply fresh_id_fresh |]. split; [reflexivity |].
  split; [| split; [reflexivity | split; [reflexivity | exact Hscore]]].
  intros k e Hk. rewrite lookup_insert_ne; [exact Hk |].
  intros <-. rewrite fresh_id_fresh in Hk. discriminate.
Qed.

Lemma generate_excuse_for_known_user_witness :
  exists d w',
    generate_excuse minimal (request_of_user 1) demo_world
    = (Ok {[ "success" := JBool true;
             "excuse_id" := JInt 1;
             "excuse" := JStr (excuse d);
             "believability_score" := JFloat (believability_score d);
             "category" := JStr "work";
             "urgency" := JStr "high" ]}, w')
    /\ users (db w') = users (db demo_world).
Proof.
  destruct (generate_excuse_for_known_user
              ExcuseGenerator.minimal_fallbacks (request_of_user 1)
              demo_world (demo_user 0))
    as (d & w' & Hrun & _ & _ & _ & Husers & _); [reflexivity |].
  exists d, w'. split; [exact Hrun | exact Husers].
Defined.

(** ** What both routes keep of the store *)

Lemma store_ok_empty : store_ok empty_db.
Proof.
  split; [| split].
  - repeat split; intros k x Hk; cbn in Hk; rewrite lookup_empty in Hk;
      discriminate.
  - intros k e Hk. cbn in Hk. rewrite lookup_empty in Hk. discriminate.
  - intros k p Hk. cbn in Hk. rewrite lookup_empty in Hk. discriminate.
Qed.

Lemma store_ok_one_excuse : store_ok one_excuse_db.
Proof.
  split; [| split].
  - repeat split; intros k x Hk; cbn in Hk.
    + apply lookup_singleton_Some in Hk as [<- <-]. reflexivity.
    + apply lookup_singleton_Some in Hk as [<- <-]. reflexivity.
    + rewrite lookup_empty in Hk. discriminate.
  - intros k e Hk. cbn in Hk. apply lookup_singleton_Some in Hk as [<- <-].
    cbn [stored_excuse new_excuse Excuse.believability_score
         believability_score]. lra.
  - intros k p Hk. cbn in Hk. rewrite lookup_empty in Hk. discriminate.
Qed.

Lemma store_ok_insert_user (d : DB) (created : Z) :
  store_ok d -> store_ok (set_users <[1%Z := demo_user created]> d).
Proof.
  intros ((Hu & He & Hp) & Hs & Ho). split; [| split; assumption].
  split; [| split; assumption].
  intros k u. cbn [users set_users]. rewrite lookup_insert.
  destruct (decide (1%Z = k)) as [<- | Hne].
  - intros [= <-]. reflexivity.
  - apply Hu.
Qed.

Lemma store_ok_insert_excuse (d : DB) (id : Z) (row : Excuse.t) :
  store_ok d ->
  Excuse.id row = id ->
  (0 <= Excuse.believability_score row <= 10)%Q ->
  store_ok (set_excuses <[id := row]> d).
Proof.
  intros ((Hu & He & Hp) & Hs & Ho) Hid Hscore. split; [| split].
  - split; [exact Hu | split; [| exact Hp]].
    intros k e. cbn [excuses set_excuses]. rewrite lookup_insert.
    destruct (decide (id = k)) as [<- | Hne].
    + intros [= <-]. exact Hid.
    + apply He.
  - intros k e. cbn [excuses set_excuses]. rewrite lookup_insert.
    destruct (decide (id = k)) as [<- | Hne].
    + intros [= <-]. exact Hscore.
    + apply Hs.
  - intros k p Hk. cbn [excuses set_excuses proof_documents] in *.
    rewrite lookup_insert.
    destruct (decide (id = ProofDocument.excuse_id p)); [eauto |].
    apply (Ho k p Hk).
Qed.

(** X8.  The route that stores excuses keeps the store in order,
    whether it answers or fails: every row stays under its own key,
    every stored score stays between 0 and 10, and every proof document
    still belongs to a stored excuse. *)
Theorem generate_excuse_keeps_store
    (loaded : ExcuseGenerator.table) (data : ExcuseRequest.t) (w : World) :
  store_ok (db w) ->
  store_ok (db (generate_excuse (ExcuseGenerator.init loaded) data w).2).
Proof.
  intros Hok.
  destruct (generator_outcome loaded
              (default "work" (ExcuseRequest.category data))
              (default "general" (ExcuseRequest.scenario data))
              (default "medium" (ExcuseRequest.urgency data))
              (default "en" (ExcuseRequest.language data)) w)
    as (d & w1 & Hrun & Hscore & _ & _ & _ & Hdb & Hnow & _).
  rewrite (generate_excuse_route_run _ _ _ _ _ Hrun).
  assert (forall w2 : World,
            store_ok (db w2) ->
            store_ok
              (db (match
                     add_excuse
                       (new_excuse (requested_user data)
                          (default "work" (ExcuseRequest.category data))
                          (default "general" (ExcuseRequest.scenario data))
                          (default "medium" (ExcuseRequest.urgency data))
                          (default "en" (ExcuseRequest.language data)) d
                          (now w2)) w2
                   with
                   | (Raised e, w3) => (Raised e, w3)
                   | (Ok excuse_id, w3) =>
                       (Ok ({[ "success" := JBool true;
                               "excuse_id" := JInt excuse_id;
                               "excuse" := JStr (excuse d);
                               "believability_score" :=
                                 JFloat (believability_score d);
                               "category" :=
                                 JStr (default "work"
                                         (ExcuseRequest.category data));
                               "urgency" :=
                                 JStr (default "medium"
                                         (ExcuseRequest.urgency data)) ]}
                              : gmap string jval), w3)
                   end).2)) as Hstore.
  { intros w2 Hok2. rewrite add_excuse_run.
    destruct (foreign_keys (db w2) && _); [exact Hok2 |].
    cbn [snd db set_db]. apply store_ok_insert_excuse;
      [exact Hok2 | reflexivity | cbn [Excuse.believability_score new_excuse];
                                  lra]. }
  destruct (users (db w1) !! requested_user data) as [u |].
  - apply Hstore. rewrite Hdb. exact Hok.
  - destruct (int64 (requested_user data));
      [| cbn [snd]; rewrite Hdb; exact Hok].
    rewrite add_user_run.
    destruct (user_conflict _ _).
    + cbn [snd]. rewrite Hdb. exact Hok.
    + apply Hstore. cbn [db set_db User.id demo_user].
      apply store_ok_insert_user. rewrite Hdb. exact Hok.
Qed.

Lemma generate_excuse_keeps_store_witness :
  store_ok (db (generate_excuse minimal (request_of_user 2) offline_world).2).
Proof.
  apply (generate_excuse_keeps_store
           ExcuseGenerator.minimal_fallbacks (request_of_user 2)
           offline_world).
  apply store_ok_empty.
Defined.

(** ** The route that makes proof documents *)

Lemma save_run (path : string) (w : World) :
  save path w
  = if disk_ok w path
    then (Ok tt, set_files (fun written => {[path]} ∪ written) w)
    else (Raised OSError, w).
Proof.
  unfold save. rewrite bind_run. cbn [gets].
  destruct (disk_ok w path); reflexivity.
Qed.

(** A renderer returns the path of the file it wrote, or nothing when
    the type has no renderer or the disk refused; it raises nothing and
    leaves the store and the clock alone. *)
Lemma generate_proof_document_outcome
    (excuse : Excuse.t) (proof_type : string) (w : World) :
  exists w2,
    generate_proof_document excuse proof_type w
    = (Ok (match proof_file proof_type excuse (stamp w) with
           | Some path => if disk_ok w path then Some path else None
           | None => None
           end), w2)
    /\ db w2 = db w /\ now w2 = now w
    /\ files w2
       = match proof_file proof_type excuse (stamp w) with
         | Some path =>
             if disk_ok w path then {[path]} ∪ files w else files w
         | None => files w
         end
    /\ (proof_file proof_type excuse (stamp w) = None -> w2 = w).
Proof.
  unfold generate_proof_document, proof_file.
  destruct (decide (proof_type = "email")) as [_ | _];
    [| destruct (decide (proof_type = "receipt")) as [_ | _];
       [| destruct (decide (proof_type = "medical_note")) as [_ | _]]].
  - unfold try_except, generate_fake_email, try_except.
    rewrite bind_run. cbn [gets]. rewrite bind_run, save_run.
    destruct (disk_ok w _); eexists; (split; [reflexivity |]);
      repeat split; discriminate.
  - unfold try_except, generate_fake_receipt, try_except.
    rewrite bind_run. cbn [gets]. rewrite bind_run.
    unfold random_randint at 1. rewrite bind_run. cbn [randbelow].
    cbn [mret Py_ret]. rewrite bind_run.
    unfold random_randint at 1. rewrite bind_run. cbn [randbelow].
    cbn [mret Py_ret]. rewrite bind_run, save_run. cbn [disk_ok set_rng].
    destruct (disk_ok w _); eexists; (split; [reflexivity |]);
      repeat split; discriminate.
  - unfold try_except, generate_medical_note, try_except.
    rewrite bind_run. cbn [gets]. rewrite bind_run.
    unfold random_randint at 1. rewrite bind_run. cbn [randbelow].
    cbn [mret Py_ret]. rewrite bind_run.
    unfold random_randint at 1. rewrite bind_run. cbn [randbelow].
    cbn [mret Py_ret]. rewrite bind_run, save_run. cbn [disk_ok set_rng].
    destruct (disk_ok w _); eexists; (split; [reflexivity |]);
      repeat split; discriminate.
  - eexists. split; [reflexivity |]. repeat split.
Qed.

Lemma add_proof_and_mark_run
    (excuse : Excuse.t) (row : Z -> ProofDocument.t) (w : World) :
  add_proof_and_mark excuse row w
  = if foreign_keys (db w)
       && negb (bool_decide
                  (is_Some (excuses (db w)
                            !! ProofDocument.excuse_id
                                 (row (fresh_id (proof_documents (db w)))))))
    then (Raised IntegrityError, w)
    else (Ok tt,
          set_db (fun d =>
            set_excuses <[Excuse.id excuse := with_proof_generated excuse]>
              (set_proof_documents
                 <[fresh_id (proof_documents (db w))
                   := row (fresh_id (proof_documents (db w)))]> d)) w).
Proof.
  unfold add_proof_and_mark. rewrite bind_run. cbn [gets].
  destruct (foreign_keys (db w) && _); reflexivity.
Qed.

(** The route for a stored excuse, once the renderer has answered. *)
Lemma generate_proof_found
    (data : ProofRequest.t) (w w2 : World) (k : Z) (excuse : Excuse.t)
    (proof_path : option string) :
  ProofRequest.excuse_id data = Some k ->
  excuses (db w) !! k = Some excuse ->
  generate_proof_document excuse
    (default "email" (ProofRequest.proof_type data)) w = (Ok proof_path, w2) ->
  db w2 = db w ->
  generate_proof data w
  = match proof_path with
    | Some path =>
        (Ok {[ "success" := JBool true;
               "proof_path" := JStr path;
               "download_url" := JStr ("/static/proofs/" +:+ basename path) ]},
         set_db (fun d =>
           set_excuses <[Excuse.id excuse := with_proof_generated excuse]>
             (set_proof_documents
                <[fresh_id (proof_documents (db w))
                  := {| ProofDocument.id := fresh_id (proof_documents (db w));
                        ProofDocument.excuse_id := k;
                        ProofDocument.document_type :=
                          default "email" (ProofRequest.proof_type data);
                        ProofDocument.file_path := path;
                        ProofDocument.generated_at := now w2 |}]> d)) w2)
    | None =>
        (Ok {[ "success" := JBool false;
               "error" := JStr "Failed to generate proof" ]}, w2)
    end.
Proof.
  intros Hid Hfound Hdoc Hdb. unfold generate_proof.
  rewrite bind_run. unfold Excuse_query_get. rewrite Hid, bind_run.
  cbn [gets]. rewrite Hfound. cbn [mret Py_ret]. rewrite bind_run, Hdoc.
  destruct proof_path as [path |]; [| reflexivity].
  rewrite bind_run. cbn [gets]. rewrite bind_run, add_proof_and_mark_run.
  cbn [ProofDocument.excuse_id key_of default from_option id].
  rewrite Hdb, Hfound, bool_decide_eq_true_2 by eauto.
  rewrite andb_false_r. reflexivity.
Qed.

(** The route for an [excuse_id] that names no row. *)
Lemma generate_proof_not_found (data : ProofRequest.t) (w : World) :
  (forall k : Z,
      ProofRequest.excuse_id data = Some k -> excuses (db w) !! k = None) ->
  generate_proof data w
  = (if bindable (ProofRequest.excuse_id data)
     then Ok {[ "success" := JBool false; "error" := JStr "Excuse not found" ]}
     else Raised OverflowError,
     w).
Proof.
  intros Hnone. unfold generate_proof. rewrite bind_run.
  unfold Excuse_query_get, bindable.
  destruct (ProofRequest.excuse_id data) as [k |]; [| reflexivity].
  rewrite bind_run. cbn [gets]. rewrite (Hnone k eq_refl).
  unfold no_row. destruct (int64 k); reflexivity.
Qed.

(** An id that the query cannot bind is an integer outside the keys. *)
Lemma not_bindable (id : option Z) :
  bindable id = false -> exists k, id = Some k /\ int64 k = false.
Proof.
  destruct id as [k |]; [eauto | discriminate].
Qed.

(** A request names a stored excuse, or none. *)
Lemma excuse_of_request (excuse_id : option Z) (w : World) :
  (exists k excuse,
      excuse_id = Some k /\ excuses (db w) !! k = Some excuse)
  \/ (forall k : Z, excuse_id = Some k -> excuses (db w) !! k = None).
Proof.
  destruct excuse_id as [k |]; [| right; discriminate].
  destruct (excuses (db w) !! k) as [excuse |] eqn:E.
  - left. eauto.
  - right. intros k' [= <-]. exact E.
Qed.

Lemma store_ok_add_proof
    (d : DB) (k id : Z) (excuse : Excuse.t) (row : ProofDocument.t) :
  store_ok d ->
  excuses d !! k = Some excuse ->
  ProofDocument.id row = id ->
  ProofDocument.excuse_id row = k ->
  store_ok
    (set_excuses <[Excuse.id excuse := with_proof_generated excuse]>
       (set_proof_documents <[id := row]> d)).
Proof.
  intros ((Hu & He & Hp) & Hs & Ho) Hfound Hid Hk. split; [| split].
  - split; [exact Hu | split].
    + intros j e. cbn [excuses set_excuses set_proof_documents].
      rewrite lookup_insert.
      destruct (decide (Excuse.id excuse = j)) as [<- | Hne].
      * intros [= <-]. reflexivity.
      * apply He.
    + intros j p. cbn [proof_documents set_excuses set_proof_documents].
      rewrite lookup_insert.
      destruct (decide (id = j)) as [<- | Hne].
      * intros [= <-]. exact Hid.
      * apply Hp.
  - intros j e. cbn [excuses set_excuses set_proof_documents].
    rewrite lookup_insert.
    destruct (decide (Excuse.id excuse = j)) as [<- | Hne].
    + intros [= <-]. cbn [with_proof_generated Excuse.believability_score].
      apply (Hs k excuse Hfound).
    + apply Hs.
  - intros j p. cbn [excuses proof_documents set_excuses set_proof_documents].
    rewrite lookup_insert.
    destruct (decide (id = j)) as [<- | Hne].
    + intros [= <-]. rewrite Hk, lookup_insert.
      destruct (decide (Excuse.id excuse = k)); eauto.
    + intros Hj. rewrite lookup_insert.
      destruct (decide (Excuse.id excuse = ProofDocument.excuse_id p));
        [eauto | apply (Ho j p Hj)].
Qed.

(** X9.  The route that makes proof documents keeps the store in order
    too: rows under their own keys, scores between 0 and 10, and every
    proof document, the new one included, belonging to a stored excuse. *)
Theorem generate_proof_keeps_store (data : ProofRequest.t) (w : World) :
  store_ok (db w) -> store_ok (db (generate_proof data w).2).
Proof.
  intros Hok.
  destruct (excuse_of_request (ProofRequest.excuse_id data) w)
    as [(k & excuse & Hid & Hfound) | Hnone].
  - destruct (generate_proof_document_outcome excuse
                (default "email" (ProofRequest.proof_type data)) w)
      as (w2 & Hdoc & Hdb & _).
    rewrite (generate_proof_found _ _ _ _ _ _ Hid Hfound Hdoc Hdb).
    destruct (match proof_file _ _ _ with Some _ => _ | None => _ end)
      as [path |]; cbn [snd db set_db]; rewrite Hdb; [| exact Hok].
    apply (store_ok_add_proof _ k); [exact Hok | exact Hfound | | ];
      reflexivity.
  - rewrite (generate_proof_not_found _ _ Hnone). exact Hok.
Qed.

(** On the store with one excuse: the route adds a proof document of
    that excuse and marks it, and the store is still in order. *)
Lemma generate_proof_keeps_store_witness :
  store_ok
    (db (generate_proof
           {| ProofRequest.excuse_id := Some 1%Z;
              ProofRequest.proof_type := Some "receipt" |}
           one_excuse_world).2)
  /\ ProofDocument.excuse_id
       <$> proof_documents
             (db (generate_proof
                    {| ProofRequest.excuse_id := Some 1%Z;
                       ProofRequest.proof_type := Some "receipt" |}
                    one_excuse_world).2) !! 1%Z
     = Some 1%Z
  /\ Excuse.proof_generated
       <$> excuses
             (db (generate_proof
                    {| ProofRequest.excuse_id := Some 1%Z;
                       ProofRequest.proof_type := Some "receipt" |}
                    one_excuse_world).2) !! 1%Z
     = Some true.
Proof.
  split; [| split; reflexivity].
  apply (generate_proof_keeps_store
           {| ProofRequest.excuse_id := Some 1%Z;
              ProofRequest.proof_type := Some "receipt" |} one_excuse_world).
  apply store_ok_one_excuse.
Defined.

(** X10.  The route that makes proof documents answers every request
    whose [excuse_id] is absent, the key of an excuse, or an integer that
    the store can hold as a key, with a response that tells success or
    failure, whatever the renderer meets and whether or not the store
    enforces foreign keys.  The one request it does not answer has an
    [excuse_id] outside the keys: the lookup raises [OverflowError] and
    the world is as it was.  The route never touches a user and never
    drops an excuse. *)
Theorem generate_proof_answers_unless_overflow
    (data : ProofRequest.t) (w : World) :
  exists w',
    ((exists response (success : bool),
         generate_proof data w = (Ok response, w')
         /\ response !! "success" = Some (JBool success))
     \/ (generate_proof data w = (Raised OverflowError, w')
         /\ w' = w
         /\ exists k,
              ProofRequest.excuse_id data = Some k
              /\ int64 k = false /\ excuses (db w) !! k = None))
    /\ users (db w') = users (db w)
    /\ (forall k, is_Some (excuses (db w) !! k) ->
                  is_Some (excuses (db w') !! k)).
Proof.
  destruct (excuse_of_request (ProofRequest.excuse_id data) w)
    as [(k & excuse & Hid & Hfound) | Hnone].
  - destruct (generate_proof_document_outcome excuse
                (default "email" (ProofRequest.proof_type data)) w)
      as (w2 & Hdoc & Hdb & _).
    rewrite (generate_proof_found _ _ _ _ _ _ Hid Hfound Hdoc Hdb).
    destruct (match proof_file _ _ _ with Some _ => _ | None => _ end)
      as [path |].
    + eexists. split; [left; eexists _, true; split; reflexivity |].
      cbn [db set_db users excuses set_excuses set_proof_documents].
      rewrite Hdb. split; [reflexivity |].
      intros j Hj. rewrite lookup_insert.
      destruct (decide (Excuse.id excuse = j)); [eauto | exact Hj].
    + eexists. split; [left; eexists _, false; split; reflexivity |].
      rewrite Hdb. split; [reflexivity | auto].
  - rewrite (generate_proof_not_found _ _ Hnone). exists w.
    split; [| split; [reflexivity | auto]].
    destruct (bindable (ProofRequest.excuse_id data)) eqn:Hbind.
    + left. eexists _, false. split; reflexivity.
    + right. destruct (not_bindable _ Hbind) as (k & Hid & Hrange).
      split; [reflexivity |]. split; [reflexivity |].
      exists k. split; [exact Hid |]. split; [exact Hrange |].
      apply Hnone, Hid.
Qed.

(** X11.  A proof asked for a stored excuse, of a type that has a
    renderer, on a disk that takes the file: the response gives the path
    of the file, the file is written, one [ProofDocument] row is stored
    under a key that no row had, with the excuse's key, the type and the
    path, and the excuse is marked as having a proof; the users are as
    they were. *)
Theorem generate_proof_succeeds
    (data : ProofRequest.t) (w : World) (k : Z) (excuse : Excuse.t)
    (path : string) :
  ProofRequest.excuse_id data = Some k ->
  excuses (db w) !! k = Some excuse ->
  Excuse.id excuse = k ->
  proof_file (default "email" (ProofRequest.proof_type data)) excuse (stamp w)
  = Some path ->
  disk_ok w path = true ->
  exists w',
    generate_proof data w
    = (Ok {[ "success" := JBool true;
             "proof_path" := JStr path;
             "download_url" := JStr ("/static/proofs/" +:+ basename path) ]},
       w')
    /\ files w' = {[path]} ∪ files w
    /\ proof_documents (db w) !! fresh_id (proof_documents (db w)) = None
    /\ proof_documents (db w')
       = <[fresh_id (proof_documents (db w))
           := {| ProofDocument.id := fresh_id (proof_documents (db w));
                 ProofDocument.excuse_id := k;
                 ProofDocument.document_type :=
                   default "email" (ProofRequest.proof_type data);
                 ProofDocument.file_path := path;
                 ProofDocument.generated_at := now w |}]>
           (proof_documents (db w))
    /\ excuses (db w') = <[k := with_proof_generated excuse]> (excuses (db w))
    /\ Excuse.proof_generated (with_proof_generated excuse) = true
    /\ users (db w') = users (db w).
Proof.
  intros Hid Hfound Hkey Hfile Hdisk.
  destruct (generate_proof_document_outcome excuse
              (default "email" (ProofRequest.proof_type data)) w)
    as (w2 & Hdoc & Hdb & Hnow & Hfiles & _).
  rewrite Hfile, Hdisk in Hdoc, Hfiles.
  rewrite (generate_proof_found _ _ _ _ _ _ Hid Hfound Hdoc Hdb).
  eexists. split; [reflexivity |].
  cbn [files db set_db users excuses proof_documents set_excuses
       set_proof_documents].
  rewrite Hdb, Hnow, Hkey. split; [exact Hfiles |].
  split; [apply fresh_id_fresh |]. repeat split.
Qed.

Lemma generate_proof_succeeds_witness :
  exists w',
    generate_proof
      {| ProofRequest.excuse_id := Some 1%Z;
         ProofRequest.proof_type := Some "medical_note" |} one_excuse_world
    = (Ok {[ "success" := JBool true;
             "proof_path" :=
               JStr "static/proofs/medical_1_20240101_000200.pdf";
             "download_url" :=
               JStr ("/static/proofs/"
                     +:+ basename
                           "static/proofs/medical_1_20240101_000200.pdf") ]},
       w')
    /\ files w' = {[ "static/proofs/medical_1_20240101_000200.pdf" ]} ∪ ∅.
Proof.
  destruct (generate_proof_succeeds
              {| ProofRequest.excuse_id := Some 1%Z;
                 ProofRequest.proof_type := Some "medical_note" |}
              one_excuse_world 1 stored_excuse
              "static/proofs/medical_1_20240101_000200.pdf")
    as (w' & Hrun & Hfiles & _);
    [reflexivity | reflexivity | reflexivity | reflexivity | reflexivity |].
  exists w'. split; [exact Hrun | exact Hfiles].
Defined.

(** X12.  A proof asked for a stored excuse that no renderer delivers,
    because the type has no renderer or the disk refuses the file: the
    response is the failure 'Failed to generate proof', no row is
    stored, the excuse is not marked and no file is written; for a type
    without renderer the whole world is as it was. *)
Theorem generate_proof_fails_without_file
    (data : ProofRequest.t) (w : World) (k : Z) (excuse : Excuse.t) :
  ProofRequest.excuse_id data = Some k ->
  excuses (db w) !! k = Some excuse ->
  match
    proof_file (default "email" (ProofRequest.proof_type data)) excuse
      (stamp w)
  with
  | Some path => disk_ok w path = false
  | None => True
  end ->
  exists w',
    generate_proof data w
    = (Ok {[ "success" := JBool false;
             "error" := JStr "Failed to generate proof" ]}, w')
    /\ db w' = db w
    /\ files w' = files w
    /\ (proof_file (default "email" (ProofRequest.proof_type data)) excuse
          (stamp w) = None -> w' = w).
Proof.
  intros Hid Hfound Hnofile.
  destruct (generate_proof_document_outcome excuse
              (default "email" (ProofRequest.proof_type data)) w)
    as (w2 & Hdoc & Hdb & _ & Hfiles & Hsame).
  assert (match
            proof_file (default "email" (ProofRequest.proof_type data))
              excuse (stamp w)
          with
          | Some path => if disk_ok w path then Some path else None
          | None => None
          end = None) as Hnone.
  { destruct (proof_file _ _ _) as [path |]; [rewrite Hnofile |]; reflexivity. }
  rewrite Hnone in Hdoc.
  rewrite (generate_proof_found _ _ _ _ _ _ Hid Hfound Hdoc Hdb).
  exists w2. split; [reflexivity |]. split; [exact Hdb |]. split; [| exact Hsame].
  rewrite Hfiles. destruct (proof_file _ _ _) as [path |];
    [rewrite Hnofile |]; reflexivity.
Qed.

Lemma generate_proof_fails_without_file_witness :
  (exists w',
      generate_proof
        {| ProofRequest.excuse_id := Some 1%Z;
           ProofRequest.proof_type := Some "receipt" |} full_disk_world
      = (Ok {[ "success" := JBool false;
               "error" := JStr "Failed to generate proof" ]}, w')
      /\ db w' = db full_disk_world)
  /\ (exists w',
        generate_proof
          {| ProofRequest.excuse_id := Some 1%Z;
             ProofRequest.proof_type := Some "alibi" |} one_excuse_world
        = (Ok {[ "success" := JBool false;
                 "error" := JStr "Failed to generate proof" ]}, w')
        /\ w' = one_excuse_world).
Proof.
  split.
  - destruct (generate_proof_fails_without_file
                {| ProofRequest.excuse_id := Some 1%Z;
                   ProofRequest.proof_type := Some "receipt" |}
                full_disk_world 1 stored_excuse)
      as (w' & Hrun & Hdb & _); [reflexivity | reflexivity | reflexivity |].
    exists w'. split; [exact Hrun | exact Hdb].
  - destruct (generate_proof_fails_without_file
                {| ProofRequest.excuse_id := Some 1%Z;
                   ProofRequest.proof_type := Some "alibi" |}
                one_excuse_world 1 stored_excuse)
      as (w' & Hrun & _ & _ & Hsame); [reflexivity | reflexivity | exact I |].
    exists w'. split; [exact Hrun | apply Hsame; reflexivity].
Defined.

(** ** The voice route *)


Lemma voice_excuse_not_found
    (tts_available : bool) (speech : Speech) (data : VoiceRequest.t)
    (w : World) :
  (forall k : Z,
      VoiceRequest.excuse_id data = Some k -> excuses (db w) !! k = None) ->
  voice_excuse tts_available speech data w
  = (if bindable (VoiceRequest.excuse_id data)
     then Ok {[ "success" := JBool false; "error" := JStr "Excuse not found" ]}
     else Raised OverflowError,
     w).
Proof.
  intros Hnone. unfold voice_excuse. rewrite bind_run.
  unfold Excuse_query_get, bindable.
  destruct (VoiceRequest.excuse_id data) as [k |]; [| reflexivity].
  rewrite bind_run. cbn [gets]. rewrite (Hnone k eq_refl).
  unfold no_row. destruct (int64 k); reflexivity.
Qed.

(** The route for a stored excuse. *)
Lemma voice_excuse_found
    (tts_available : bool) (speech : Speech) (data : VoiceRequest.t)
    (w : World) (k : Z) (excuse : Excuse.t) :
  VoiceRequest.excuse_id data = Some k ->
  excuses (db w) !! k = Some excuse ->
  voice_excuse tts_available speech data w
  = if tts_available
    then
      match
        synthesize speech (Excuse.excuse_text excuse)
          (tts_language_of (Excuse.language excuse))
          ("static/audio/"
           +:+ ("excuse_" +:+ pretty k +:+ "_" +:+ stamp w +:+ ".mp3"))
      with
      | None =>
          (Ok {[ "success" := JBool true;
                 "audio_url" :=
                   JStr ("/"
                         +:+ ("static/audio/"
                              +:+ ("excuse_" +:+ pretty k +:+ "_"
                                   +:+ stamp w +:+ ".mp3")));
                 "message" :=
                   JStr ("Voice file generated successfully in "
                         +:+ tts_language_of (Excuse.language excuse)
                         +:+ "!") ]},
           set_files
             (fun written =>
                {[ "static/audio/"
                   +:+ ("excuse_" +:+ pretty k +:+ "_" +:+ stamp w
                        +:+ ".mp3") ]} ∪ written) w)
      | Some e =>
          (Ok {[ "success" := JBool false;
                 "error" :=
                   JStr ("Voice generation failed: " +:+ str_of speech e) ]},
           w)
      end
    else
      (Ok {[ "success" := JBool false;
             "error" :=
               JStr "Voice features not available. Install with: pip install gTTS pygame" ]},
       w).
Proof.
  intros Hid Hfound. unfold voice_excuse. rewrite bind_run.
  unfold Excuse_query_get. rewrite Hid, bind_run. cbn [gets].
  rewrite Hfound. cbn [mret Py_ret].
  destruct tts_available; [| reflexivity].
  cbn [negb]. unfold try_except. rewrite bind_run. cbn [gets].
  rewrite bind_run. unfold gtts_save. cbn [key_of default from_option id].
  destruct (synthesize speech _ _ _) as [e |]; reflexivity.
Qed.

(** X13.  The voice route checks the excuse before the speech backend.
    For an [excuse_id] that is the key of no excuse, whether or not the
    backend is installed: the response is 'Excuse not found' when the
    [excuse_id] is absent or an integer that the store can hold as a
    key, and for any other integer the lookup raises [OverflowError] out
    of the route.  For a stored excuse without the backend the response
    is the hint to install it.  In every one of these cases the world is
    as it was, whatever the backend would do. *)
Theorem voice_excuse_refusals
    (tts_available : bool) (speech : Speech) (data : VoiceRequest.t)
    (w : World) :
  ((forall k : Z,
       VoiceRequest.excuse_id data = Some k -> excuses (db w) !! k = None) ->
   voice_excuse tts_available speech data w
   = (if bindable (VoiceRequest.excuse_id data)
      then Ok {[ "success" := JBool false;
                 "error" := JStr "Excuse not found" ]}
      else Raised OverflowError,
      w))
  /\ (forall k excuse,
        VoiceRequest.excuse_id data = Some k ->
        excuses (db w) !! k = Some excuse ->
        tts_available = false ->
        voice_excuse tts_available speech data w
        = (Ok {[ "success" := JBool false;
                 "error" :=
                   JStr "Voice features not available. Install with: pip install gTTS pygame" ]},
           w)).
Proof.
  split.
  - apply voice_excuse_not_found.
  - intros k excuse Hid Hfound ->.
    rewrite (voice_excuse_found _ _ _ _ _ _ Hid Hfound). reflexivity.
Qed.

Lemma voice_excuse_refusals_witness :
  voice_excuse false working_speech {| VoiceRequest.excuse_id := Some 9%Z |}
    one_excuse_world
  = (Ok {[ "success" := JBool false; "error" := JStr "Excuse not found" ]},
     one_excuse_world)
  /\ voice_excuse true working_speech
       {| VoiceRequest.excuse_id := Some (2 ^ 63)%Z |} one_excuse_world
     = (Raised OverflowError, one_excuse_world)
  /\ voice_excuse false working_speech
       {| VoiceRequest.excuse_id := Some 1%Z |} one_excuse_world
     = (Ok {[ "success" := JBool false;
              "error" :=
                JStr "Voice features not available. Install with: pip install gTTS pygame" ]},
        one_excuse_world).
Proof.
  split; [| split].
  - apply (voice_excuse_refusals false working_speech
             {| VoiceRequest.excuse_id := Some 9%Z |} one_excuse_world).
    intros k [= <-]. reflexivity.
  - apply (voice_excuse_refusals true working_speech
             {| VoiceRequest.excuse_id := Some (2 ^ 63)%Z |}
             one_excuse_world).
    intros k [= <-]. reflexivity.
  - apply (proj2 (voice_excuse_refusals false working_speech
                    {| VoiceRequest.excuse_id := Some 1%Z |}
                    one_excuse_world) 1%Z stored_excuse);
      reflexivity.
Defined.



(** X15.  The voice route answers every request whose [excuse_id] is
    absent, the key of an excuse, or an integer that the store can hold
    as a key, with a response that tells success or failure, whatever
    the backend does.  The one request it does not answer has an
    [excuse_id] outside the keys: the lookup, which is not inside the
    [try], raises [OverflowError] and the world is as it was.  The route
    reads the store and never changes it. *)
Theorem voice_excuse_answers_unless_overflow
    (tts_available : bool) (speech : Speech) (data : VoiceRequest.t)
    (w : World) :
  exists w',
    ((exists response (success : bool),
         voice_excuse tts_available speech data w = (Ok response, w')
         /\ response !! "success" = Some (JBool success))
     \/ (voice_excuse tts_available speech data w
         = (Raised OverflowError, w')
         /\ w' = w
         /\ exists k,
              VoiceRequest.excuse_id data = Some k
              /\ int64 k = false /\ excuses (db w) !! k = None))
    /\ db w' = db w.
Proof.
  destruct (excuse_of_request (VoiceRequest.excuse_id data) w)
    as [(k & excuse & Hid & Hfound) | Hnone].
  - rewrite (voice_excuse_found _ _ _ _ _ _ Hid Hfound).
    destruct tts_available.
    + destruct (synthesize speech _ _ _) as [e |].
      * eexists. split; [left; eexists _, false; split; reflexivity |].
        reflexivity.
      * eexists. split; [left; eexists _, true; split; reflexivity |].
        reflexivity.
    + eexists. split; [left; eexists _, false; split; reflexivity |].
      reflexivity.
  - rewrite (voice_excuse_not_found _ _ _ _ Hnone). exists w.
    split; [| reflexivity].
    destruct (bindable (VoiceRequest.excuse_id data)) eqn:Hbind.
    + left. eexists _, false. split; reflexivity.
    + right. destruct (not_bindable _ Hbind) as (k & Hid & Hrange).
      split; [reflexivity |]. split; [reflexivity |].
      exists k. split; [exact Hid |]. split; [exact Hrange |].
      apply Hnone, Hid.
Qed.

(** ** The body of the email *)

Section Strings.

Lemma str_app_cons (x : Ascii.ascii) (a b : string) :
  String x a +:+ b = String x (a +:+ b).
Proof. reflexivity. Qed.

Lemma str_app_nil_l (a : string) : "" +:+ a = a.
Proof. reflexivity. Qed.

Lemma str_app_assoc (a b c : string) : (a +:+ b) +:+ c = a +:+ (b +:+ c).
Proof.
  induction a as [| x a IH]; [reflexivity |].
  rewrite !str_app_cons, IH. reflexivity.
Qed.

Lemma str_app_nil_r (a : string) : a +:+ "" = a.
Proof.
  induction a as [| x a IH]; [reflexivity |].
  rewrite str_app_cons, IH. reflexivity.
Qed.

Lemma str_length_app (a b : string) :
  String.length (a +:+ b) = (String.length a + String.length b)%nat.
Proof.
  induction a as [| x a IH]; [reflexivity |].
  rewrite str_app_cons. cbn [String.length]. rewrite IH. reflexivity.
Qed.

Lemma str_app_space_nonempty (a : string) : a +:+ " " <> "".
Proof. destruct a; discriminate. Qed.

End Strings.

(** The loop gives back, in order, what it was given: the text of the
    lines it drew and of the line it leaves is the line it started with
    followed by the words, each with its blank. *)
Lemma wrap_words_text (words : list string) (y_pos : Z) (line : string) :
  joined (map snd (wrap_words words y_pos line).1)
  +:+ (wrap_words words y_pos line).2.2
  = line +:+ joined (map (fun word => word +:+ " ") words).
Proof.
  revert y_pos line. induction words as [| word words IH]; intros y_pos line.
  - cbn. rewrite str_app_nil_r. reflexivity.
  - cbn [wrap_words map joined foldr].
    destruct (Z.of_nat (String.length (line +:+ word)) <? 70)%Z.
    + rewrite IH. fold (joined (map (fun w => w +:+ " ") words)).
      rewrite !str_app_assoc. reflexivity.
    + cbn [fst snd map joined foldr].
      fold (joined (map snd (wrap_words words (y_pos + 30) (word +:+ " ")).1)).
      rewrite str_app_assoc, IH.
      fold (joined (map (fun w => w +:+ " ") words)).
      rewrite !str_app_assoc. reflexivity.
Qed.

(** The loop leaves a line that is not empty as soon as it saw a word. *)
Lemma wrap_words_last_line (words : list string) (y_pos : Z) (line : string) :
  words <> [] \/ line <> "" -> (wrap_words words y_pos line).2.2 <> "".
Proof.
  revert y_pos line. induction words as [| word words IH]; intros y_pos line H.
  - cbn. destruct H as [H | H]; [congruence | exact H].
  - cbn [wrap_words].
    destruct (Z.of_nat (String.length (line +:+ word)) <? 70)%Z.
    + apply IH. right. rewrite <- str_app_assoc. apply str_app_space_nonempty.
    + cbn [snd]. apply IH. right. apply str_app_space_nonempty.
Qed.

(** The lines of the loop are 30 apart, from [y_pos] down. *)
Lemma wrap_words_rows (words : list string) (y_pos : Z) (line : string) :
  map fst (wrap_words words y_pos line).1
  = map (fun i => (y_pos + 30 * Z.of_nat i)%Z)
      (seq 0 (length (wrap_words words y_pos line).1))
  /\ (wrap_words words y_pos line).2.1
     = (y_pos + 30 * Z.of_nat (length (wrap_words words y_pos line).1))%Z.
Proof.
  revert y_pos line. induction words as [| word words IH]; intros y_pos line.
  - cbn. split; [reflexivity | lia].
  - cbn [wrap_words].
    destruct (Z.of_nat (String.length (line +:+ word)) <? 70)%Z;
      [apply IH |].
    cbn [fst snd map length seq].
    destruct (IH (y_pos + 30)%Z (word +:+ " ")) as [Hrows Hlast].
    split.
    + f_equal; [lia |]. rewrite Hrows, <- seq_shift, map_map.
      apply map_ext. intros i. lia.
    + rewrite Hlast. lia.
Qed.

(** Every line of the loop has at most 70 characters or is one word that
    is too long on its own. *)
Lemma wrap_words_width
    (all : list string) (words : list string) (y_pos : Z) (line : string) :
  (forall word, word ∈ words -> word ∈ all) ->
  ((String.length line <= 70)%nat
   \/ exists word, word ∈ all /\ line = word +:+ " ") ->
  Forall (fun row =>
            (String.length row.2 <= 70)%nat
            \/ exists word, word ∈ all /\ row.2 = word +:+ " ")
    ((wrap_words words y_pos line).1 ++ [(wrap_words words y_pos line).2]).
Proof.
  revert y_pos line. induction words as [| word words IH];
    intros y_pos line Hall Hline.
  - cbn. constructor; [exact Hline | constructor].
  - cbn [wrap_words].
    destruct (Z.of_nat (String.length (line +:+ word)) <? 70)%Z eqn:Hfit.
    + apply IH; [intros x Hx; apply Hall; right; exact Hx |].
      left. apply Z.ltb_lt in Hfit.
      rewrite str_length_app in Hfit |- *. rewrite str_length_app.
      cbn [String.length]. lia.
    + cbn [fst snd app]. constructor; [exact Hline |].
      apply IH; [intros x Hx; apply Hall; right; exact Hx |].
      right. exists word. split; [apply Hall; left | reflexivity].
Qed.

Lemma joined_app (a b : list string) :
  joined (a ++ b) = joined a +:+ joined b.
Proof.
  induction a as [| x a IH]; [reflexivity |].
  cbn [app joined foldr]. fold (joined (a ++ b)). fold (joined a).
  rewrite IH, str_app_assoc. reflexivity.
Qed.

(** X16.  The body of the email loses nothing: the lines drawn, put end
    to end, are the words of the excuse in their order, each followed by
    one blank. *)
Theorem email_body_keeps_words (excuse_text : string) :
  joined (map snd (email_body_lines excuse_text))
  = joined (map (fun word => word +:+ " ") (PyStr.split excuse_text)).
Proof.
  unfold email_body_lines.
  pose proof (wrap_words_text (PyStr.split excuse_text) 150 "") as Htext.
  rewrite str_app_nil_l in Htext.
  set (run := wrap_words (PyStr.split excuse_text) 150 "") in *.
  rewrite map_app, joined_app, <- Htext. f_equal.
  destruct (decide (run.2.2 = "")) as [-> | _]; [reflexivity |].
  cbn. apply str_app_nil_r.
Qed.

(** X17.  Every line of the body has at most 70 characters, unless it is
    a single word that is too long on its own. *)
Theorem email_body_width (excuse_text : string) :
  Forall (fun row =>
            (String.length row.2 <= 70)%nat
            \/ exists word,
                 word ∈ PyStr.split excuse_text /\ row.2 = word +:+ " ")
    (email_body_lines excuse_text).
Proof.
  unfold email_body_lines.
  pose proof (wrap_words_width (PyStr.split excuse_text)
                (PyStr.split excuse_text) 150 "" (fun _ H => H)
                (or_introl (Nat.le_0_l 70))) as Hall.
  apply Forall_app in Hall as [Hloop Hlast]. apply Forall_app. split;
    [exact Hloop |].
  destruct (decide (_ = "")); [constructor | exact Hlast].
Qed.

(** X18.  The body starts at y = 150 and its lines are 30 apart; the
    two footer lines stand 50 and 80 below the last body line, or below
    150 when the excuse has no word and no body line is drawn. *)
Theorem email_layout (excuse_text : string) :
  map fst (email_body_lines excuse_text)
  = map (fun i => (150 + 30 * Z.of_nat i)%Z)
      (seq 0 (length (email_body_lines excuse_text)))
  /\ email_footer excuse_text
     = [ ((150 + 30 * Z.of_nat (length (email_body_lines excuse_text) - 1)
           + 50)%Z, "Best regards,");
         ((150 + 30 * Z.of_nat (length (email_body_lines excuse_text) - 1)
           + 80)%Z, "Emergency Contact") ]
  /\ (email_body_lines excuse_text = [] <-> PyStr.split excuse_text = []).
Proof.
  unfold email_body_lines, email_footer.
  destruct (wrap_words_rows (PyStr.split excuse_text) 150 "")
    as [Hrows Hlast].
  pose proof (wrap_words_last_line (PyStr.split excuse_text) 150 "") as Hline.
  set (run := wrap_words (PyStr.split excuse_text) 150 "") in *.
  destruct (PyStr.split excuse_text) as [| word words] eqn:Hwords.
  - subst run. cbn. repeat split; reflexivity.
  - destruct (decide (run.2.2 = "")) as [Hempty | _].
    { destruct Hline; [left; discriminate | exact Hempty]. }
    rewrite length_app, map_app, Hrows. cbn [length map].
    replace (length run.1 + 1)%nat with (S (length run.1)) by lia.
    rewrite seq_S, map_app. cbn [map app Nat.add fst].
    split; [rewrite Hlast; reflexivity |]. split.
    + rewrite Hlast.
      replace (S (length run.1) - 1)%nat with (length run.1) by lia.
      reflexivity.
    + split; [intros H; destruct run.1; discriminate H | discriminate].
Qed.

(** The loop over words that all have fewer than 70 characters draws no
    empty line once its line holds something. *)
Lemma wrap_words_no_blank (words : list string) (y_pos : Z) (line : string) :
  Forall (fun word => (String.length word < 70)%nat) words ->
  Forall (fun row => row.2 <> "") (wrap_words words y_pos line).1.
Proof.
  revert y_pos line. induction words as [| word words IH];
    intros y_pos line Hshort; [constructor |].
  apply Forall_cons in Hshort as [Hword Hshort].
  cbn [wrap_words].
  destruct (Z.of_nat (String.length (line +:+ word)) <? 70)%Z eqn:Hfit;
    [apply IH, Hshort |].
  cbn [fst]. constructor; [| apply IH, Hshort].
  cbn [snd]. intros ->. apply Z.ltb_ge in Hfit.
  rewrite str_app_nil_l in Hfit. lia.
Qed.

(** X19.  When every word of the excuse has fewer than 70 characters, no
    line of the body is empty; when the first word has 70 or more, the
    first line drawn, at y = 150, is empty and the word comes below it. *)
Theorem email_body_blank_line (excuse_text : string) :
  (Forall (fun word => (String.length word < 70)%nat)
     (PyStr.split excuse_text) ->
   Forall (fun row => row.2 <> "") (email_body_lines excuse_text))
  /\ (forall word words,
        PyStr.split excuse_text = word :: words ->
        (70 <= String.length word)%nat ->
        exists rows,
          email_body_lines excuse_text = (150%Z, "") :: rows
          /\ rows <> []).
Proof.
  unfold email_body_lines. split.
  - intros Hshort. apply Forall_app. split;
      [apply wrap_words_no_blank, Hshort |].
    destruct (decide (_ = "")) as [_ | Hne]; [constructor |].
    constructor; [exact Hne | constructor].
  - intros word words Hsplit Hlong.
    pose proof (wrap_words_last_line words 180 (word +:+ " ")
                  (or_intror (str_app_space_nonempty word))) as Hline.
    rewrite Hsplit. cbn [wrap_words]. rewrite str_app_nil_l.
    replace (Z.of_nat (String.length word) <? 70)%Z with false
      by (symmetry; apply Z.ltb_ge; lia).
    cbn [fst snd app]. change (150 + 30)%Z with 180%Z.
    eexists. split; [reflexivity |].
    destruct (decide (_ = "")) as [Hempty | _]; [destruct (Hline Hempty) |].
    destruct (wrap_words words 180 (word +:+ " ")).1; discriminate.
Qed.

Lemma email_body_blank_line_witness :
  Forall (fun row => row.2 <> "")
    (email_body_lines "I have an emergency that requires immediate attention.")
  /\ exists rows,
       email_body_lines (seventy_letters +:+ " is all I can say")
       = (150%Z, "") :: rows
       /\ rows <> [].
Proof.
  split.
  - apply (proj1 (email_body_blank_line
                    "I have an emergency that requires immediate attention.")).
    vm_compute. repeat constructor.
  - apply (proj2 (email_body_blank_line
                    (seventy_letters +:+ " is all I can say"))
             seventy_letters ["is"; "all"; "I"; "can"; "say"]).
    + reflexivity.
    + vm_compute. reflexivity.
Defined.

(** ** The description line of the receipt *)

Lemma str_take_length (n : nat) (s : string) :
  String.length (str_take n s) = Nat.min n (String.length s).
Proof.
  revert s. induction n as [| n IH]; intros [| c s]; cbn; try reflexivity.
  rewrite IH. reflexivity.
Qed.

Lemma str_take_prefix (n : nat) (s : string) :
  exists rest, s = str_take n s +:+ rest.
Proof.
  revert s. induction n as [| n IH]; intros s.
  - exists s. destruct s; reflexivity.
  - destruct s as [| c s]; [exists ""; reflexivity |].
    destruct (IH s) as [rest Hrest]. exists rest.
    cbn [str_take]. rewrite str_app_cons, <- Hrest. reflexivity.
Qed.

Lemma str_take_all (n : nat) (s : string) :
  (String.length s <= n)%nat -> str_take n s = s.
Proof.
  revert s. induction n as [| n IH]; intros [| c s] H; cbn in *;
    try reflexivity; [lia |].
  rewrite IH by lia. reflexivity.
Qed.

(** X20.  The description line of the receipt holds at most the first 60
    characters of the excuse, between 'Description: ' and an ellipsis
    that is there even when nothing was cut: at most 76 characters,
    exactly 76 for an excuse of more than 60, and the whole excuse with
    the ellipsis for one of 60 or fewer. *)
Theorem receipt_description_cut (excuse_text : string) :
  (String.length (receipt_description excuse_text) <= 76)%nat
  /\ (exists dropped,
        excuse_text = str_take 60 excuse_text +:+ dropped
        /\ receipt_description excuse_text
           = "Description: " +:+ str_take 60 excuse_text +:+ "...")
  /\ ((String.length excuse_text <= 60)%nat ->
      receipt_description excuse_text
      = "Description: " +:+ excuse_text +:+ "...")
  /\ ((60 < String.length excuse_text)%nat ->
      String.length (receipt_description excuse_text) = 76%nat).
Proof.
  unfold receipt_description.
  assert (String.length ("Description: " +:+ str_take 60 excuse_text +:+ "...")
          = (16 + Nat.min 60 (String.length excuse_text))%nat) as Hlen.
  { rewrite !str_length_app, str_take_length. cbn [String.length]. lia. }
  split; [rewrite Hlen; lia |]. split; [| split].
  - destruct (str_take_prefix 60 excuse_text) as [dropped Hdropped].
    exists dropped. split; [exact Hdropped | reflexivity].
  - intros Hshort. rewrite str_take_all by exact Hshort. reflexivity.
  - intros Hlong. rewrite Hlen. lia.
Qed.

(** ** The score and the blanks around the text *)

Section Strip.

Lemma rev_app_spec (s acc : string) :
  String.rev_app s acc = String.rev_app s "" +:+ acc.
Proof.
  revert acc. induction s as [| c s IH]; intros acc; [reflexivity |].
  cbn [String.rev_app]. rewrite IH, (IH (String c "")), str_app_assoc.
  reflexivity.
Qed.

Lemma rev_cons (c : Ascii.ascii) (s : string) :
  String.rev (String c s) = String.rev s +:+ String c "".
Proof. unfold String.rev. cbn [String.rev_app]. apply rev_app_spec. Qed.

Lemma rev_app_distr (a b : string) :
  String.rev (a +:+ b) = String.rev b +:+ String.rev a.
Proof.
  induction a as [| c a IH].
  - rewrite str_app_nil_l. symmetry. apply str_app_nil_r.
  - rewrite str_app_cons, !rev_cons, IH, str_app_assoc. reflexivity.
Qed.

Lemma rev_involutive (s : string) : String.rev (String.rev s) = s.
Proof.
  induction s as [| c s IH]; [reflexivity |].
  rewrite rev_cons, rev_app_distr, IH. reflexivity.
Qed.

Lemma all_space_app (a b : string) :
  all_space (a +:+ b) = all_space a && all_space b.
Proof.
  induction a as [| c a IH]; [reflexivity |].
  rewrite str_app_cons. cbn [all_space]. rewrite IH, andb_assoc. reflexivity.
Qed.

Lemma all_space_rev (s : string) : all_space (String.rev s) = all_space s.
Proof.
  induction s as [| c s IH]; [reflexivity |].
  rewrite rev_cons, all_space_app, IH. cbn [all_space].
  rewrite andb_true_r. apply andb_comm.
Qed.

(** What [lstrip], [rstrip] and [strip] take away is whitespace. *)
Lemma lstrip_cut (s : string) :
  exists blanks, s = blanks +:+ PyStr.lstrip s /\ all_space blanks = true.
Proof.
  induction s as [| c s (blanks & Heq & Hblank)]; [exists ""; split; reflexivity |].
  cbn [PyStr.lstrip]. destruct (PyStr.isspace c) eqn:Hc.
  - exists (String c blanks). rewrite str_app_cons, <- Heq. split; [reflexivity |].
    cbn [all_space]. rewrite Hc, Hblank. reflexivity.
  - exists "". split; reflexivity.
Qed.

Lemma rstrip_cut (s : string) :
  exists blanks, s = PyStr.rstrip s +:+ blanks /\ all_space blanks = true.
Proof.
  unfold PyStr.rstrip.
  destruct (lstrip_cut (String.rev s)) as (blanks & Heq & Hblank).
  exists (String.rev blanks). split; [| rewrite all_space_rev; exact Hblank].
  rewrite <- rev_app_distr, <- Heq, rev_involutive. reflexivity.
Qed.

Lemma strip_cut (s : string) :
  exists before after,
    s = before +:+ PyStr.strip s +:+ after
    /\ all_space before = true /\ all_space after = true.
Proof.
  unfold PyStr.strip.
  destruct (lstrip_cut s) as (before & Heq & Hbefore).
  destruct (rstrip_cut (PyStr.lstrip s)) as (after & Heq' & Hafter).
  exists before, after. split; [| split; assumption].
  rewrite <- Heq', <- Heq. reflexivity.
Qed.

(** Whitespace before or after a text starts no word. *)
Lemma word_starts_blanks_before (blanks s : string) :
  all_space blanks = true ->
  Reference.word_starts true (blanks +:+ s) = Reference.word_starts true s.
Proof.
  induction blanks as [| c blanks IH]; intros H; [reflexivity |].
  cbn [all_space] in H. apply andb_true_iff in H as [Hc H].
  rewrite str_app_cons. cbn [Reference.word_starts]. rewrite Hc.
  cbn [negb andb Nat.add]. apply IH, H.
Qed.

Lemma word_starts_blanks (blanks : string) (after_space : bool) :
  all_space blanks = true -> Reference.word_starts after_space blanks = 0%nat.
Proof.
  revert after_space. induction blanks as [| c blanks IH]; intros b H;
    [reflexivity |].
  cbn [all_space] in H. apply andb_true_iff in H as [Hc H].
  cbn [Reference.word_starts]. rewrite Hc, andb_false_r, (IH _ H). reflexivity.
Qed.

Lemma word_starts_blanks_after (s blanks : string) (after_space : bool) :
  all_space blanks = true ->
  Reference.word_starts after_space (s +:+ blanks)
  = Reference.word_starts after_space s.
Proof.
  revert after_space. induction s as [| c s IH]; intros b H.
  - rewrite str_app_nil_l. apply word_starts_blanks, H.
  - rewrite str_app_cons. cbn [Reference.word_starts]. rewrite (IH _ H).
    reflexivity.
Qed.

(** A word without whitespace is found in whitespace nowhere, and is
    found in a text with whitespace around it where it is found in the
    text. *)
Lemma prefix_blanks (word blanks : string) :
  word <> "" -> no_space word = true -> all_space blanks = true ->
  String.prefix word blanks = false.
Proof.
  intros Hne Hword Hblank. destruct word as [| a word]; [congruence |].
  destruct blanks as [| c blanks]; [reflexivity |].
  cbn [no_space all_space] in *.
  apply andb_true_iff in Hword as [Ha _].
  apply andb_true_iff in Hblank as [Hc _].
  cbn [String.prefix]. destruct (Ascii.ascii_dec a c) as [-> | _];
    [| reflexivity].
  rewrite Hc in Ha. discriminate.
Qed.

Lemma contains_blanks (word blanks : string) :
  word <> "" -> no_space word = true -> all_space blanks = true ->
  PyStr.contains word blanks = false.
Proof.
  intros Hne Hword. induction blanks as [| c blanks IH]; intros Hblank.
  - cbn [PyStr.contains]. rewrite (prefix_blanks _ "" Hne Hword eq_refl).
    reflexivity.
  - cbn [PyStr.contains]. rewrite (prefix_blanks _ _ Hne Hword Hblank).
    cbn [all_space] in Hblank. apply andb_true_iff in Hblank as [_ Hblank].
    rewrite (IH Hblank). reflexivity.
Qed.

Lemma prefix_blanks_after (word s blanks : string) :
  no_space word = true -> all_space blanks = true ->
  String.prefix word (s +:+ blanks) = String.prefix word s.
Proof.
  revert s. induction word as [| a word IH]; intros s Hword Hblank.
  - destruct s, blanks; reflexivity.
  - destruct s as [| b s].
    + rewrite str_app_nil_l.
      rewrite (prefix_blanks (String a word) blanks) by (discriminate || assumption).
      reflexivity.
    + rewrite str_app_cons. cbn [String.prefix].
      destruct (Ascii.ascii_dec a b); [| reflexivity].
      cbn [no_space] in Hword. apply andb_true_iff in Hword as [_ Hword].
      apply IH; assumption.
Qed.

Lemma contains_blanks_after (word s blanks : string) :
  word <> "" -> no_space word = true -> all_space blanks = true ->
  PyStr.contains word (s +:+ blanks) = PyStr.contains word s.
Proof.
  intros Hne Hword Hblank. induction s as [| c s IH].
  - rewrite str_app_nil_l, (contains_blanks _ _ Hne Hword Hblank).
    cbn [PyStr.contains]. rewrite (prefix_blanks _ "" Hne Hword eq_refl).
    reflexivity.
  - rewrite str_app_cons. cbn [PyStr.contains].
    rewrite <- str_app_cons, (prefix_blanks_after _ _ _ Hword Hblank), IH.
    reflexivity.
Qed.

Lemma contains_blanks_before (word blanks s : string) :
  word <> "" -> no_space word = true -> all_space blanks = true ->
  PyStr.contains word (blanks +:+ s) = PyStr.contains word s.
Proof.
  intros Hne Hword. induction blanks as [| c blanks IH]; intros Hblank;
    [reflexivity |].
  cbn [all_space] in Hblank. apply andb_true_iff in Hblank as [Hc Hblank].
  rewrite str_app_cons. cbn [PyStr.contains]. rewrite (IH Hblank).
  destruct word as [| a word]; [congruence |].
  cbn [String.prefix]. destruct (Ascii.ascii_dec a c) as [-> | _];
    [| reflexivity].
  cbn [no_space] in Hword. rewrite Hc in Hword. discriminate.
Qed.

Lemma lower_app (a b : string) :
  PyStr.lower (a +:+ b) = PyStr.lower a +:+ PyStr.lower b.
Proof.
  induction a as [| c a IH]; [reflexivity |].
  rewrite str_app_cons. cbn [PyStr.lower]. rewrite IH, str_app_cons.
  reflexivity.
Qed.

Lemma all_space_lower (s : string) : all_space (PyStr.lower s) = all_space s.
Proof.
  induction s as [| c s IH]; [reflexivity |].
  cbn [PyStr.lower all_space]. rewrite isspace_lower_char, IH. reflexivity.
Qed.

End Strip.

(** A word the scorer looks for: not empty and without whitespace. *)
Lemma keyword_found_in_strip (word text : string) :
  word <> "" -> no_space word = true ->
  PyStr.contains word (PyStr.lower (PyStr.strip text))
  = PyStr.contains word (PyStr.lower text).
Proof.
  intros Hne Hword.
  destruct (strip_cut text) as (before & after & Heq & Hbefore & Hafter).
  rewrite Heq at 2. rewrite !lower_app.
  rewrite contains_blanks_before, contains_blanks_after;
    rewrite ?all_space_lower; auto.
Qed.

Lemma specific_words_plain :
  Forall (fun word => word <> "" /\ no_space word = true)
    Scorer.specific_words.
Proof. repeat constructor; discriminate. Qed.

Lemma urgency_words_plain (urgency : string) :
  Forall (fun word => word <> "" /\ no_space word = true)
    (dict_get Scorer.urgency_words urgency []).
Proof.
  destruct (decide (urgency = "high")) as [-> | Hh];
    [repeat constructor; discriminate |].
  destruct (decide (urgency = "medium")) as [-> | Hm];
    [repeat constructor; discriminate |].
  destruct (decide (urgency = "low")) as [-> | Hl];
    [repeat constructor; discriminate |].
  rewrite urgency_words_unknown; [constructor |].
  rewrite !not_elem_of_cons. repeat split; try assumption.
  apply not_elem_of_nil.
Qed.

(** X21.  The score does not see the whitespace around the text: the
    text that [generate_excuse] strips before it scores and stores it
    scores as the text the service sent. *)
Theorem score_ignores_outer_blanks (text category urgency : string) :
  Scorer.calculate_believability (PyStr.strip text) category urgency
  = Scorer.calculate_believability text category urgency.
Proof.
  assert (len (PyStr.split (PyStr.strip text)) = len (PyStr.split text))
    as Hlen.
  { unfold len. f_equal. rewrite !split_word_count. unfold Reference.word_count.
    destruct (strip_cut text) as (before & after & Heq & Hbefore & Hafter).
    rewrite Heq at 2.
    rewrite (word_starts_blanks_before _ _ Hbefore),
      (word_starts_blanks_after _ _ _ Hafter). reflexivity. }
  assert (Scorer.specificity (PyStr.strip text) = Scorer.specificity text)
    as Hspec.
  { unfold Scorer.specificity. do 2 f_equal.
    pose proof specific_words_plain as Hplain.
    induction Hplain as [| word words [Hne Hword] _ IH]; [reflexivity |].
    cbn [List.filter]. rewrite IH, (keyword_found_in_strip _ _ Hne Hword).
    reflexivity. }
  assert (Scorer.urgency_aligned (PyStr.strip text) urgency
          = Scorer.urgency_aligned text urgency) as Haligned.
  { unfold Scorer.urgency_aligned.
    pose proof (urgency_words_plain urgency) as Hplain.
    induction Hplain as [| word words [Hne Hword] _ IH]; [reflexivity |].
    cbn [existsb]. rewrite IH, (keyword_found_in_strip _ _ Hne Hword).
    reflexivity. }
  unfold Scorer.calculate_believability.
  rewrite Hlen, Hspec, Haligned. reflexivity.
Qed.

(** ** How the route that stores excuses can end *)

(** X22.  The route that stores excuses ends in one of three ways.  It
    answers, and then exactly one excuse was stored, under the key that
    the response gives and that no row had.  Or it raises
    [IntegrityError], and then no excuse was stored.  Or it raises
    [OverflowError], for a [user_id] that has no row and is an integer
    outside the keys that the store can hold, and then the store is as
    it was.  It raises no other exception.  In every case the proof
    documents are untouched, and the users are as they were or have
    gained the demo user, who may stay behind after a request that
    failed. *)
Theorem generate_excuse_outcomes
    (loaded : ExcuseGenerator.table) (data : ExcuseRequest.t) (w : World) :
  exists w',
    ((exists response row,
         generate_excuse (ExcuseGenerator.init loaded) data w
         = (Ok response, w')
         /\ response !! "excuse_id"
            = Some (JInt (fresh_id (excuses (db w))))
         /\ Excuse.user_id row = requested_user data
         /\ excuses (db w) !! fresh_id (excuses (db w)) = None
         /\ excuses (db w')
            = <[fresh_id (excuses (db w)) := row]> (excuses (db w)))
     \/ (generate_excuse (ExcuseGenerator.init loaded) data w
         = (Raised IntegrityError, w')
         /\ excuses (db w') = excuses (db w))
     \/ (generate_excuse (ExcuseGenerator.init loaded) data w
         = (Raised OverflowError, w')
         /\ db w' = db w
         /\ users (db w) !! requested_user data = None
         /\ int64 (requested_user data) = false))
    /\ proof_documents (db w') = proof_documents (db w)
    /\ (users (db w') = users (db w)
        \/ users (db w') = <[1%Z := demo_user (now w)]> (users (db w))).
Proof.
  destruct (generator_outcome loaded
              (default "work" (ExcuseRequest.category data))
              (default "general" (ExcuseRequest.scenario data))
              (default "medium" (ExcuseRequest.urgency data))
              (default "en" (ExcuseRequest.language data)) w)
    as (d & w1 & Hrun & _ & _ & _ & _ & Hdb & Hnow & _).
  rewrite (generate_excuse_route_run _ _ _ _ _ Hrun). rewrite Hdb.
  destruct (users (db w) !! requested_user data) as [u |] eqn:Huser;
    [| destruct (int64 (requested_user data)) eqn:Hrange].
  - rewrite add_excuse_run, Hdb.
    destruct (foreign_keys (db w) && _).
    + exists w1. rewrite Hdb. split; [right; left; split; reflexivity |].
      split; [reflexivity | left; reflexivity].
    + eexists. split; [left; eexists _, _; split; [reflexivity |] |].
      * cbn [db set_db set_excuses excuses]. rewrite Hdb.
        split; [reflexivity |].
        split; [| split; [apply fresh_id_fresh | reflexivity]].
        reflexivity.
      * cbn [db set_db set_excuses users proof_documents]. rewrite Hdb.
        split; [reflexivity | left; reflexivity].
  - rewrite add_user_run, Hdb, Hnow.
    destruct (user_conflict _ _).
    + exists w1. rewrite Hdb. split; [right; left; split; reflexivity |].
      split; [reflexivity | left; reflexivity].
    + rewrite add_excuse_run.
      cbn [db set_db set_users foreign_keys excuses users User.id demo_user].
      rewrite Hdb.
      destruct (foreign_keys (db w) && _).
      * eexists. split; [right; left; split; [reflexivity |] |].
        -- cbn [db set_db set_users excuses]. rewrite Hdb. reflexivity.
        -- cbn [db set_db set_users users proof_documents]. rewrite Hdb.
           split; [reflexivity | right; reflexivity].
      * eexists. split; [left; eexists _, _; split; [reflexivity |] |].
        -- cbn [db set_db set_users set_excuses excuses]. rewrite Hdb.
           split; [reflexivity |].
           split; [| split; [apply fresh_id_fresh | reflexivity]].
           reflexivity.
        -- cbn [db set_db set_users set_excuses users proof_documents].
           rewrite Hdb. split; [reflexivity | right; reflexivity].
  - exists w1. rewrite Hdb.
    split; [right; right; repeat split; reflexivity |].
    split; [reflexivity | left; reflexivity].
Qed.
